(** * Guess The Number: the card tables and the answer decoder

    A shallow embedding of the logic of [guest_the_number.py]: the class
    constant [GuessTheNumberGame.CARDS_NUMS], the static method
    [GuessTheNumberGame.get_result], and the few lines of game state
    ([start_game], [process_answer], [show_next_card]) that feed the one
    into the other; further the grid of [NumberCard.__init__] and the
    window with its stack of pages and its buttons.  Of Qt only what the
    methods rely on is modelled: the list of pages of the stacked widget
    with the index on display, and which buttons a page carries; colours,
    fonts and sizes are left out.

    Modelling conventions.
    - A Python [int] is a [Z].
    - A Python [str] is a [string]; a character is an [ascii], so the strings
      covered are those of 8-bit code points.
    - A call that may raise returns a [result]: [Ok v] or [Raise e].
    - The interpreter is CPython with its default settings, among them the
      limit on the digits of an [int] that [str] converts. *)

From Stdlib Require Import ZArith List String Ascii Bool Lia Permutation.
From Stdlib Require Import DecimalString DecimalZ.
Import ListNotations.

Open Scope string_scope.
Open Scope Z_scope.

(** ** Results of calls that may raise *)

Inductive exn : Type :=
| ValueError
| IndexError.

Inductive result (A : Type) : Type :=
| Ok (a : A)
| Raise (e : exn).

Arguments Ok {A} a.
Arguments Raise {A} e.

Definition bind {A B : Type} (r : result A) (k : A -> result B) : result B :=
  match r with
  | Ok a => k a
  | Raise e => Raise e
  end.

Notation "x <- r ;; k" := (bind r (fun x => k))
  (at level 61, r at next level, right associativity).

Fixpoint mapM {A B : Type} (f : A -> result B) (l : list A) : result (list B) :=
  match l with
  | [] => Ok []
  | x :: rest =>
      y <- f x ;;
      ys <- mapM f rest ;;
      Ok (y :: ys)
  end.

(** ** The built-ins the program uses *)

Module Py.

(** The decimal numeral of an integer, as [str] prints it. *)
Definition decimal_string (n : Z) : string :=
  NilZero.string_of_int (Z.to_int n).

(** [sys.int_info.default_max_str_digits]: CPython converts an [int] to a
    decimal [str] only when it has at most this many digits, unless the limit
    is reconfigured, which the program never does. *)
Definition default_max_str_digits : Z := 4300.

(** [str(n)] for an [int].  The conversion raises [ValueError] ("Exceeds the
    limit (4300 digits) for integer string conversion") when [n] has more
    digits than the limit; an integer has more than [d] decimal digits
    exactly when its absolute value is at least [10 ^ d]. *)
Definition str (n : Z) : result string :=
  if 10 ^ default_max_str_digits <=? Z.abs n
  then Raise ValueError
  else Ok (decimal_string n).

(** Every [k+1]-th element of [l], after dropping [skip] elements. *)
Fixpoint stride {A : Type} (skip k : nat) (l : list A) : list A :=
  match l with
  | [] => []
  | x :: rest =>
      match skip with
      | O => x :: stride k k rest
      | S m => stride m k rest
      end
  end.

(** The extended slice [s[::step]]: the whole string walked with stride
    [step], forwards from the first character when [step] is positive,
    backwards from the last when it is negative; a zero step raises. *)
Definition slice_step (s : string) (step : Z) : result string :=
  if step =? 0 then Raise ValueError
  else if 0 <? step then
    Ok (string_of_list_ascii
          (stride 0 (Z.to_nat (step - 1)) (list_ascii_of_string s)))
  else
    Ok (string_of_list_ascii
          (stride 0 (Z.to_nat (- step - 1)) (rev (list_ascii_of_string s)))).

(** The subscript [l[i]] of a list: a negative index counts from the end,
    an index outside [-len, len) raises. *)
Definition index {A : Type} (l : list A) (i : Z) : result A :=
  let len := Z.of_nat (List.length l) in
  let j := if i <? 0 then i + len else i in
  if (0 <=? j) && (j <? len)
  then match nth_error l (Z.to_nat j) with
       | Some x => Ok x
       | None => Raise IndexError
       end
  else Raise IndexError.

End Py.

(** ** [GuessTheNumberGame.get_result] *)

(** The body of [for i, bit in enumerate(binary_string)], from index [i] on,
    with the running value of the local [decimal]. *)
Fixpoint get_result_loop (i : Z) (binary_string : string) (decimal : Z) : Z :=
  match binary_string with
  | EmptyString => decimal
  | String bit rest =>
      get_result_loop (i + 1) rest
        (if Ascii.eqb bit "1" then decimal + 2 ^ i else decimal)
  end.

Definition get_result (binary_string : string) : result string :=
  binary_string <- Py.slice_step binary_string 1 ;;
  let decimal := get_result_loop 0 binary_string 0 in
  Py.str decimal.

(** The value of the local [decimal] when the loop of [get_result] ends. *)
Definition decimal_of (binary_string : string) : Z :=
  get_result_loop 0 binary_string 0.

(** ** [GuessTheNumberGame.CARDS_NUMS] *)

(** The six integer lists the class body writes out. *)
Definition CARDS_LITERALS : list (list Z) :=
  [ [1; 3; 5; 7; 9; 11; 13; 15; 17; 19; 21; 23; 25; 27; 29; 31; 33; 35; 37;
     39; 41; 43; 45; 47; 49; 51; 53; 55; 57; 59; 61; 63];
    [2; 3; 6; 7; 10; 11; 14; 15; 18; 19; 22; 23; 26; 27; 30; 31; 34; 35; 38;
     39; 42; 43; 46; 47; 50; 51; 54; 55; 58; 59; 62; 63];
    [4; 5; 6; 7; 12; 13; 14; 15; 20; 21; 22; 23; 28; 29; 30; 31; 36; 37; 38;
     39; 44; 45; 46; 47; 52; 53; 54; 55; 60; 61; 62; 63];
    [8; 9; 10; 11; 12; 13; 14; 15; 24; 25; 26; 27; 28; 29; 30; 31; 40; 41; 42;
     43; 44; 45; 46; 47; 56; 57; 58; 59; 60; 61; 62; 63];
    [16; 17; 18; 19; 20; 21; 22; 23; 24; 25; 26; 27; 28; 29; 30; 31; 48; 49;
     50; 51; 52; 53; 54; 55; 56; 57; 58; 59; 60; 61; 62; 63];
    [32; 33; 34; 35; 36; 37; 38; 39; 40; 41; 42; 43; 44; 45; 46; 47; 48; 49;
     50; 51; 52; 53; 54; 55; 56; 57; 58; 59; 60; 61; 62; 63] ].

(** The evaluation of the class attribute: [list(map(str, ...))] on each
    literal list. *)
Definition CARDS_NUMS_init : result (list (list string)) :=
  mapM (mapM Py.str) CARDS_LITERALS.

(** Its value (see [CARDS_NUMS_init_ok]): six lists of decimal numerals. *)
Definition CARDS_NUMS : list (list string) :=
  map (map Py.decimal_string) CARDS_LITERALS.

(** ** The game state and the three methods that drive a round *)

Record game : Type := Game {
  answers : string;
  card_num : Z
}.

Definition start_game : game :=
  {| answers := ""; card_num := 0 |}.

Definition process_answer (g : game) (answer : string) : game :=
  {| answers := answers g ++ answer; card_num := card_num g + 1 |}.

(** What [show_next_card] puts on the window: the next card with its Yes
    and No buttons, or the result label. *)
Inductive screen : Type :=
| GAME (card : list string)
| RESULT (label : string).

Definition show_next_card (g : game) : result screen :=
  if 6 <=? card_num g then
    r <- get_result (answers g) ;;
    Ok (RESULT r)
  else
    card <- Py.index CARDS_NUMS (card_num g) ;;
    Ok (GAME card).

(** The two buttons of the game screen: Yes sends ['1'], No sends ['0']. *)
Definition answer_char (yes : bool) : ascii :=
  if yes then "1"%char else "0"%char.

Definition button (yes : bool) : string :=
  String (answer_char yes) EmptyString.

(** The answer string that a sequence of clicks builds up. *)
Definition answer_string (clicks : list bool) : string :=
  string_of_list_ascii (map answer_char clicks).

(** A player who thinks of [n] and answers truthfully: Yes exactly when the
    numeral of [n] is among the labels of the card. *)
Definition on_card (n : Z) (card : list string) : bool :=
  existsb (String.eqb (Py.decimal_string n)) card.

(** A round with that player, from a given state; [None] when the fuel runs
    out before the result screen. *)
Fixpoint play (fuel : nat) (n : Z) (g : game) : option (result string) :=
  match fuel with
  | O => None
  | S fuel' =>
      match show_next_card g with
      | Raise e => Some (Raise e)
      | Ok (RESULT r) => Some (Ok r)
      | Ok (GAME card) =>
          play fuel' n (process_answer g (button (on_card n card)))
      end
  end.

(** A string of [n] characters ['0']. *)
Definition zeros (n : nat) : string :=
  string_of_list_ascii (repeat "0"%char n).

(** A string of [n] characters ['1']. *)
Definition ones (n : nat) : string :=
  string_of_list_ascii (repeat "1"%char n).

(** An answer string far longer than a round produces: 14285 times ['0'],
    then one ['1']. *)
Definition long_input : string :=
  zeros (Z.to_nat 14285) ++ "1".

(** ** Definitions that follow the specification's words *)

(** Bit [k] of [n], as the specification writes it: [(n >> k) & 1 == 1]. *)
Definition bit_set (k : nat) (n : Z) : bool :=
  Z.land (Z.shiftr n (Z.of_nat k)) 1 =? 1.

(** The integers [lo], [lo + 1], ..., [lo + len - 1]. *)
Definition Zrange (lo : Z) (len : nat) : list Z :=
  map (fun i => lo + Z.of_nat i) (seq 0 len).

(** Card [k] of the specification: the numbers of [1..63] with bit [k]. *)
Definition spec_card (k : nat) : list Z :=
  filter (bit_set k) (Zrange 1 63).

Definition Zsum (l : list Z) : Z := fold_right Z.add 0 l.

(** What position [i] of the string [s] adds: [2 ^ i] for the character
    ['1'], nothing for any other character or past the end. *)
Definition contribution (s : string) (i : nat) : Z :=
  match String.get i s with
  | Some c => if Ascii.eqb c "1" then 2 ^ Z.of_nat i else 0
  | None => 0
  end.

(** The straightforward positional decoder: answer [i] is bit [i]. *)
Definition positional_sum (s : string) : Z :=
  Zsum (map (contribution s) (seq 0 (String.length s))).

Definition decode_positional (s : string) : result string :=
  Py.str (positional_sum s).

(** The specification's [decode] on six booleans. *)
Definition spec_decode (clicks : list bool) : Z :=
  Zsum (map (fun i => if nth i clicks false then 2 ^ Z.of_nat i else 0)
            (seq 0 6)).

(** ** Faults of the window code *)

(** Besides the exceptions of the built-ins above, the window code can run
    into a missing attribute and into a division by zero. *)
Inductive fault : Type :=
| Builtin (e : exn)
| AttributeError
| ZeroDivisionError.

Inductive outcome (A : Type) : Type :=
| Done (a : A)
| Fault (f : fault).

Arguments Done {A} a.
Arguments Fault {A} f.

Definition obind {A B : Type} (r : outcome A) (k : A -> outcome B)
  : outcome B :=
  match r with
  | Done a => k a
  | Fault f => Fault f
  end.

Notation "x <~ r ;; k" := (obind r (fun x => k))
  (at level 61, r at next level, right associativity).

Definition lift {A : Type} (r : result A) : outcome A :=
  match r with
  | Ok a => Done a
  | Raise e => Fault (Builtin e)
  end.

(** [divmod(a, b)] on integers: floor division and its remainder. *)
Definition divmod (a b : Z) : outcome (Z * Z) :=
  if b =? 0 then Fault ZeroDivisionError else Done (a / b, a mod b).

(** ** [NumberCard.__init__]: the grid of labels *)

(** A label that [grid.addWidget(label, row, col)] has put on the grid. *)
Record cell : Type := Cell {
  text : string;
  row : Z;
  col : Z
}.

(** The loop [for i, num in enumerate(numbers)], from index [i] on, with the
    cells added so far. *)
Fixpoint add_labels (cols i : Z) (numbers : list string) (grid : list cell)
  : outcome (list cell) :=
  match numbers with
  | [] => Done grid
  | num :: rest =>
      rc <~ divmod i cols ;;
      add_labels cols (i + 1) rest
        (grid ++ [{| text := num; row := fst rc; col := snd rc |}])
  end.

Definition NumberCard (numbers : list string) : outcome (list cell) :=
  let count := Z.of_nat (List.length numbers) in
  let cols := Z.min 8 count in
  add_labels cols 0 numbers [].

(** ** [GuessTheNumberGame]: the window, its pages and its buttons *)

Module Window.

(** The pages of the stacked widget, with what they show.  [BlankPage] is
    the empty [QWidget()] that [init_screens] puts in the place of the game
    and result screens. *)
Inductive page : Type :=
| MainMenuPage
| IntroductionPage
| BlankPage
| GamePage (progress : string) (card : list cell)
| ResultPage (label : string).

Inductive button : Type :=
| PLAY
| EXIT
| Start
| Yes
| No
| PlayAgain
| MainMenuButton.

Definition MAIN_MENU : Z := 0.
Definition INTRODUCTION : Z := 1.
Definition GAME : Z := 2.
Definition RESULT : Z := 3.

(** The attributes of the window that the methods read and write.
    [answers] is [None] as long as the attribute does not exist. *)
Record window : Type := Build {
  answer : string;
  answers : option string;
  card_num : Z;
  stacked_widget : list page;
  currentIndex : Z;
  enabled : bool;
  visible : bool
}.

(** [QStackedWidget.widget(i)]: the page at index [i], if there is one. *)
Definition widget (pages : list page) (i : Z) : option page :=
  if i <? 0 then None else nth_error pages (Z.to_nat i).

(** [removeWidget] of the page that [widget(i)] returned. *)
Definition removeWidget (pages : list page) (i : Z) : list page :=
  firstn (Z.to_nat i) pages ++ skipn (S (Z.to_nat i)) pages.

(** [insertWidget(i, p)]: an index out of range appends. *)
Definition insertWidget (pages : list page) (i : Z) (p : page) : list page :=
  if (i <? 0) || (Z.of_nat (List.length pages) <? i)
  then pages ++ [p]
  else firstn (Z.to_nat i) pages ++ p :: skipn (Z.to_nat i) pages.

Definition set_pages (w : window) (pages : list page) : window :=
  {| answer := answer w; answers := answers w; card_num := card_num w;
     stacked_widget := pages; currentIndex := currentIndex w;
     enabled := enabled w; visible := visible w |}.

Definition setEnabled (w : window) (b : bool) : window :=
  {| answer := answer w; answers := answers w; card_num := card_num w;
     stacked_widget := stacked_widget w; currentIndex := currentIndex w;
     enabled := b; visible := visible w |}.

(** [setCurrentIndex(i)] selects page [i]; without such a page it does
    nothing. *)
Definition setCurrentIndex (w : window) (i : Z) : window :=
  match widget (stacked_widget w) i with
  | Some _ =>
      {| answer := answer w; answers := answers w; card_num := card_num w;
         stacked_widget := stacked_widget w; currentIndex := i;
         enabled := enabled w; visible := visible w |}
  | None => w
  end.

(** The window when [__init__] returns: it sets [self.answer], not
    [self.answers]; [init_screens] has added the four pages. *)
Definition init : window :=
  {| answer := ""; answers := None; card_num := 0;
     stacked_widget := [MainMenuPage; IntroductionPage; BlankPage; BlankPage];
     currentIndex := MAIN_MENU; enabled := true; visible := true |}.

Definition start_game (w : window) : outcome window :=
  Done (setCurrentIndex
          {| answer := answer w; answers := Some ""; card_num := 0;
             stacked_widget := stacked_widget w;
             currentIndex := currentIndex w;
             enabled := enabled w; visible := visible w |}
          INTRODUCTION).

(** Swapping the page at index [i]: [old_widget = widget(i)], then
    [removeWidget(old_widget)], [old_widget.deleteLater()] and
    [insertWidget(i, p)].  Without a page at [i], [old_widget] is [None]
    and has no [deleteLater]. *)
Definition replace_page (w : window) (i : Z) (p : page) : outcome window :=
  match widget (stacked_widget w) i with
  | Some _ =>
      Done (set_pages w
              (insertWidget (removeWidget (stacked_widget w) i) i p))
  | None => Fault AttributeError
  end.

Definition update_game_screen (w : window) : outcome window :=
  shown <~ lift (Py.str (card_num w + 1)) ;;
  let progress := "Card " ++ shown ++ " of 6" in
  numbers <~ lift (Py.index CARDS_NUMS (card_num w)) ;;
  card <~ NumberCard numbers ;;
  w' <~ replace_page w GAME (GamePage progress card) ;;
  Done (setCurrentIndex w' GAME).

Definition update_result_screen (w : window) : outcome window :=
  match answers w with
  | None => Fault AttributeError
  | Some binary_string =>
      result <~ lift (get_result binary_string) ;;
      replace_page w RESULT (ResultPage result)
  end.

Definition show_next_card (w : window) : outcome window :=
  if 6 <=? card_num w then
    w' <~ update_result_screen w ;;
    Done (setCurrentIndex w' RESULT)
  else
    update_game_screen w.

(** [process_answer] up to its two timers. *)
Definition process_answer (w : window) (a : string) : outcome window :=
  match answers w with
  | None => Fault AttributeError
  | Some s =>
      Done {| answer := answer w; answers := Some (s ++ a);
              card_num := card_num w + 1;
              stacked_widget := stacked_widget w;
              currentIndex := currentIndex w;
              enabled := false; visible := visible w |}
  end.

(** A click on Yes or No: [process_answer], and then the two single-shot
    timers it has started, which fire together while the disabled window
    takes no click: [show_next_card] and the re-enabling. *)
Definition answer_click (w : window) (a : string) : outcome window :=
  w1 <~ process_answer w a ;;
  w2 <~ show_next_card w1 ;;
  Done (setEnabled w2 true).

Definition go_to_main_menu (w : window) : outcome window :=
  Done (setCurrentIndex w MAIN_MENU).

Definition close (w : window) : outcome window :=
  Done {| answer := answer w; answers := answers w; card_num := card_num w;
          stacked_widget := stacked_widget w;
          currentIndex := currentIndex w;
          enabled := enabled w; visible := false |}.

(** The buttons each page carries, and the slot each is connected to. *)
Definition buttons_of (p : page) : list button :=
  match p with
  | MainMenuPage => [PLAY; EXIT]
  | IntroductionPage => [Start]
  | BlankPage => []
  | GamePage _ _ => [Yes; No]
  | ResultPage _ => [PlayAgain; MainMenuButton]
  end.

Definition slot (b : button) (w : window) : outcome window :=
  match b with
  | PLAY => start_game w
  | EXIT => close w
  | Start => show_next_card w
  | Yes => answer_click w "1"
  | No => answer_click w "0"
  | PlayAgain => start_game w
  | MainMenuButton => go_to_main_menu w
  end.

Definition button_eqb (a b : button) : bool :=
  match a, b with
  | PLAY, PLAY | EXIT, EXIT | Start, Start | Yes, Yes | No, No
  | PlayAgain, PlayAgain | MainMenuButton, MainMenuButton => true
  | _, _ => false
  end.

(** The page on display. *)
Definition shown (w : window) : option page :=
  widget (stacked_widget w) (currentIndex w).

(** A button can be clicked when the window is open and enabled and the
    button is on the page on display. *)
Definition clickable (w : window) (b : button) : bool :=
  visible w && enabled w &&
  match shown w with
  | Some p => existsb (button_eqb b) (buttons_of p)
  | None => false
  end.

(** One click: [None] when the button cannot be clicked. *)
Definition click (w : window) (b : button) : option (outcome window) :=
  if clickable w b then Some (slot b w) else None.

(** A sequence of clicks; it stops at the first fault. *)
Fixpoint clicks (w : window) (bs : list button) : option (outcome window) :=
  match bs with
  | [] => Some (Done w)
  | b :: rest =>
      match click w b with
      | Some (Done w') => clicks w' rest
      | other => other
      end
  end.

(** The states that clicks can reach from the window as constructed. *)
Inductive reachable : window -> Prop :=
| reach_init : reachable init
| reach_click (w w' : window) (b : button) :
    reachable w -> click w b = Some (Done w') -> reachable w'.

(** The button for an answer. *)
Definition answer_button (yes : bool) : button :=
  if yes then Yes else No.

End Window.

(** The closed form of the grid of a card: label [i] in row [i / cols] and
    column [i mod cols]. *)
Definition grid_of (cols : Z) (start : nat) (numbers : list string)
  : list cell :=
  map (fun p => {| text := snd p;
                   row := Z.of_nat (fst p) / cols;
                   col := Z.of_nat (fst p) mod cols |})
      (combine (seq start (List.length numbers)) numbers).

(** The [len] low bits of [n], lowest first. *)
Definition bits (n : Z) (len : nat) : list bool :=
  map (fun k => Z.testbit n (Z.of_nat k)) (seq 0 len).

(** ** The states of the window during play *)

(** The game page for card [k]: its progress line and its grid. *)
Definition game_page (k : nat) : Window.page :=
  Window.GamePage
    ("Card " ++ Py.decimal_string (Z.of_nat k + 1) ++ " of 6")
    (grid_of 8 0 (nth k CARDS_NUMS [])).

Definition result_page (given : list bool) : Window.page :=
  Window.ResultPage (Py.decimal_string (spec_decode given)).

(** What the third and the fourth page of the stack can be. *)
Definition game_slot (p : Window.page) : Prop :=
  p = Window.BlankPage \/ exists k : nat, (k < 6)%nat /\ p = game_page k.

Definition result_slot (p : Window.page) : Prop :=
  p = Window.BlankPage \/ exists label : string, p = Window.ResultPage label.

Definition menu_state (a : string) (ans : option string) (k : Z)
           (p2 p3 : Window.page) (vis : bool) : Window.window :=
  {| Window.answer := a; Window.answers := ans; Window.card_num := k;
     Window.stacked_widget :=
       [Window.MainMenuPage; Window.IntroductionPage; p2; p3];
     Window.currentIndex := Window.MAIN_MENU;
     Window.enabled := true; Window.visible := vis |}.

Definition intro_state (a : string) (p2 p3 : Window.page) (vis : bool)
  : Window.window :=
  {| Window.answer := a; Window.answers := Some ""; Window.card_num := 0;
     Window.stacked_widget :=
       [Window.MainMenuPage; Window.IntroductionPage; p2; p3];
     Window.currentIndex := Window.INTRODUCTION;
     Window.enabled := true; Window.visible := vis |}.

(** On the game screen after the answers [given]. *)
Definition game_state (a : string) (p3 : Window.page) (vis : bool)
           (given : list bool) : Window.window :=
  {| Window.answer := a;
     Window.answers := Some (answer_string given);
     Window.card_num := Z.of_nat (List.length given);
     Window.stacked_widget :=
       [Window.MainMenuPage; Window.IntroductionPage;
        game_page (List.length given); p3];
     Window.currentIndex := Window.GAME;
     Window.enabled := true; Window.visible := vis |}.

(** On the result screen after the six answers [given]. *)
Definition result_state (a : string) (p2 : Window.page) (vis : bool)
           (given : list bool) : Window.window :=
  {| Window.answer := a;
     Window.answers := Some (answer_string given);
     Window.card_num := 6;
     Window.stacked_widget :=
       [Window.MainMenuPage; Window.IntroductionPage; p2;
        result_page given];
     Window.currentIndex := Window.RESULT;
     Window.enabled := true; Window.visible := vis |}.

(** The shapes a window has between two clicks. *)
Inductive consistent : Window.window -> Prop :=
| on_menu (a : string) (ans : option string) (k : Z)
          (p2 p3 : Window.page) (vis : bool) :
    game_slot p2 -> result_slot p3 ->
    consistent (menu_state a ans k p2 p3 vis)
| on_intro (a : string) (p2 p3 : Window.page) (vis : bool) :
    game_slot p2 -> result_slot p3 ->
    consistent (intro_state a p2 p3 vis)
| on_game (a : string) (p3 : Window.page) (vis : bool)
          (given : list bool) :
    result_slot p3 -> (List.length given < 6)%nat ->
    consistent (game_state a p3 vis given)
| on_result (a : string) (p2 : Window.page) (vis : bool)
            (given : list bool) :
    game_slot p2 -> List.length given = 6%nat ->
    consistent (result_state a p2 vis given).

(** * Properties *)

(** ** The built-ins *)

Lemma stride_all {A : Type} (l : list A) : Py.stride 0 0 l = l.
Proof.
  induction l as [|x rest IH]; simpl.
  - reflexivity.
  - now rewrite IH.
Qed.

Lemma slice_step_one (s : string) : Py.slice_step s 1 = Ok s.
Proof.
  unfold Py.slice_step. simpl.
  now rewrite stride_all, string_of_list_ascii_of_string.
Qed.

Lemma slice_step_minus_one (s : string) :
  Py.slice_step s (-1) =
  Ok (string_of_list_ascii (rev (list_ascii_of_string s))).
Proof.
  unfold Py.slice_step. simpl. now rewrite stride_all.
Qed.

Lemma str_below (n : Z) :
  Z.abs n < 10 ^ Py.default_max_str_digits ->
  Py.str n = Ok (Py.decimal_string n).
Proof.
  intros H. unfold Py.str.
  destruct (Z.leb_spec (10 ^ Py.default_max_str_digits) (Z.abs n)) as [Hle|_].
  - lia.
  - reflexivity.
Qed.

Lemma str_above (n : Z) :
  10 ^ Py.default_max_str_digits <= Z.abs n ->
  Py.str n = Raise ValueError.
Proof.
  intros H. unfold Py.str.
  destruct (Z.leb_spec (10 ^ Py.default_max_str_digits) (Z.abs n)) as [_|Hlt].
  - reflexivity.
  - lia.
Qed.

Lemma str_ok_iff (n : Z) :
  (exists r, Py.str n = Ok r) <-> Z.abs n < 10 ^ Py.default_max_str_digits.
Proof.
  split.
  - intros [r Hr].
    destruct (Z.lt_ge_cases (Z.abs n) (10 ^ Py.default_max_str_digits)) as [H|H].
    + exact H.
    + rewrite (str_above n H) in Hr. discriminate Hr.
  - intros H. exists (Py.decimal_string n). now apply str_below.
Qed.

(** The criterion of [Py.str] at work on the digits of a numeral. *)
Example digits_and_powers :
  String.length (Py.decimal_string (10 ^ 3 - 1)) = 3%nat
  /\ String.length (Py.decimal_string (10 ^ 3)) = 4%nat.
Proof. split; reflexivity. Qed.

Lemma small_below_limit (n : Z) :
  0 <= n <= Py.default_max_str_digits ->
  Z.abs n < 10 ^ Py.default_max_str_digits.
Proof.
  intros [H0 H1].
  rewrite Z.abs_eq by exact H0.
  apply Z.le_lt_trans with (m := Py.default_max_str_digits); [exact H1|].
  apply Z.pow_gt_lin_r; unfold Py.default_max_str_digits; lia.
Qed.

Lemma to_int_parses (n : Z) :
  NilZero.int_of_string (Py.decimal_string n) = Some (Z.to_int n).
Proof.
  unfold Py.decimal_string. apply NilZero.isi.
  - destruct n as [|p|p]; simpl; try discriminate.
    intros [= H]. now apply (DecimalPos.Unsigned.to_uint_nonnil p).
  - destruct n as [|p|p]; simpl; try discriminate.
    intros [= H]. now apply (DecimalPos.Unsigned.to_uint_nonnil p).
Qed.

Lemma decimal_string_inj (n m : Z) :
  Py.decimal_string n = Py.decimal_string m -> n = m.
Proof.
  intros H. apply DecimalZ.to_int_inj.
  pose proof (to_int_parses n) as Hn.
  rewrite H, to_int_parses in Hn.
  now injection Hn.
Qed.


(** ** The decoding loop *)

Lemma get_result_value (s : string) :
  get_result s = Py.str (decimal_of s).
Proof.
  unfold get_result. now rewrite slice_step_one.
Qed.

(** The accumulator only ever receives additions. *)
Lemma loop_accumulator (s : string) :
  forall i d, get_result_loop i s d = d + get_result_loop i s 0.
Proof.
  induction s as [|bit rest IH]; intros i d; cbn [get_result_loop].
  - lia.
  - destruct (Ascii.eqb bit "1").
    + rewrite (IH (i + 1) (d + 2 ^ i)), (IH (i + 1) (0 + 2 ^ i)). lia.
    + apply IH.
Qed.

(** One more character at the end adds its own power of two, or nothing. *)
Lemma loop_snoc (s : string) (c : ascii) :
  forall i d,
    get_result_loop i (s ++ String c EmptyString) d =
    (if Ascii.eqb c "1"
     then get_result_loop i s d + 2 ^ (i + Z.of_nat (String.length s))
     else get_result_loop i s d).
Proof.
  induction s as [|bit rest IH]; intros i d.
  - simpl. now rewrite Z.add_0_r.
  - cbn [append get_result_loop String.length].
    rewrite IH.
    replace (i + 1 + Z.of_nat (String.length rest))
      with (i + Z.of_nat (S (String.length rest))) by lia.
    reflexivity.
Qed.

Lemma loop_bounds (s : string) :
  forall i d,
    0 <= i ->
    d <= get_result_loop i s d
      <= d + (2 ^ (i + Z.of_nat (String.length s)) - 2 ^ i).
Proof.
  induction s as [|bit rest IH]; intros i d Hi.
  - simpl. rewrite Z.add_0_r. lia.
  - cbn [get_result_loop String.length].
    replace (i + Z.of_nat (S (String.length rest)))
      with (i + 1 + Z.of_nat (String.length rest)) by lia.
    assert (Hp : 2 ^ (i + 1) = 2 * 2 ^ i)
      by (rewrite Z.pow_add_r by lia; lia).
    assert (H2 : 0 < 2 ^ i) by (apply Z.pow_pos_nonneg; lia).
    destruct (Ascii.eqb bit "1").
    + specialize (IH (i + 1) (d + 2 ^ i) ltac:(lia)). lia.
    + specialize (IH (i + 1) d ltac:(lia)). lia.
Qed.

Lemma decimal_of_bounds (s : string) :
  0 <= decimal_of s < 2 ^ Z.of_nat (String.length s).
Proof.
  unfold decimal_of.
  pose proof (loop_bounds s 0 0 ltac:(lia)) as H.
  rewrite !Z.add_0_l, Z.pow_0_r in H. lia.
Qed.

(** The sum that the loop computes when it starts counting at [i]. *)
Lemma loop_as_sum (s : string) :
  forall (i : nat) (d : Z),
    get_result_loop (Z.of_nat i) s d =
    d + Zsum (map (fun j =>
                     match String.get j s with
                     | Some c =>
                         if Ascii.eqb c "1" then 2 ^ Z.of_nat (i + j) else 0
                     | None => 0
                     end)
                  (seq 0 (String.length s))).
Proof.
  induction s as [|bit rest IH]; intros i d.
  - simpl. lia.
  - cbn [get_result_loop String.length].
    rewrite <- cons_seq, <- seq_shift, map_cons, map_map.
    cbn [String.get Zsum fold_right].
    replace (Z.of_nat i + 1) with (Z.of_nat (S i)) by lia.
    rewrite IH. rewrite Nat.add_0_r.
    assert (Hext :
      map (fun j =>
             match String.get j rest with
             | Some c =>
                 if Ascii.eqb c "1" then 2 ^ Z.of_nat (S i + j) else 0
             | None => 0
             end) (seq 0 (String.length rest)) =
      map (fun x =>
             match String.get x rest with
             | Some c =>
                 if Ascii.eqb c "1" then 2 ^ Z.of_nat (i + S x) else 0
             | None => 0
             end) (seq 0 (String.length rest))).
    { apply map_ext. intros j.
      now replace (S i + j)%nat with (i + S j)%nat by lia. }
    rewrite Hext. unfold Zsum.
    destruct (Ascii.eqb bit "1"); lia.
Qed.

Lemma decimal_of_positional (s : string) :
  decimal_of s = positional_sum s.
Proof.
  unfold decimal_of, positional_sum.
  change 0 with (Z.of_nat 0) at 1.
  rewrite loop_as_sum. rewrite Z.add_0_l.
  f_equal.
Qed.


(** ** The card tables *)

Lemma Zrange_In (lo n : Z) (len : nat) :
  In n (Zrange lo len) <-> lo <= n < lo + Z.of_nat len.
Proof.
  unfold Zrange. rewrite in_map_iff. split.
  - intros [i [<- Hi]]. apply in_seq in Hi. lia.
  - intros H. exists (Z.to_nat (n - lo)). split.
    + lia.
    + apply in_seq. lia.
Qed.

Lemma Zrange_NoDup (lo : Z) (len : nat) : NoDup (Zrange lo len).
Proof.
  unfold Zrange. apply Finite.Injective_map_NoDup.
  - intros i j H. lia.
  - apply seq_NoDup.
Qed.

Lemma spec_card_In (k : nat) (n : Z) :
  In n (spec_card k) <->
  1 <= n <= 63 /\ Z.land (Z.shiftr n (Z.of_nat k)) 1 = 1.
Proof.
  unfold spec_card, bit_set.
  rewrite filter_In, Zrange_In, Z.eqb_eq. simpl. lia.
Qed.

Lemma spec_card_NoDup (k : nat) : NoDup (spec_card k).
Proof. apply NoDup_filter, Zrange_NoDup. Qed.

(** The literal lists are the specification's cards, in ascending order. *)
Lemma literals_are_spec_cards : CARDS_LITERALS = map spec_card (seq 0 6).
Proof. vm_compute. reflexivity. Qed.

Lemma nth_CARDS_NUMS (k : nat) :
  (k < 6)%nat ->
  nth k CARDS_NUMS [] = map Py.decimal_string (spec_card k).
Proof.
  intros Hk. unfold CARDS_NUMS.
  rewrite literals_are_spec_cards, map_map.
  rewrite (nth_indep _ [] (map Py.decimal_string (spec_card 0)))
    by (rewrite length_map, length_seq; exact Hk).
  rewrite (map_nth (fun j => map Py.decimal_string (spec_card j))).
  now rewrite seq_nth by exact Hk.
Qed.

Lemma card_membership (k : nat) (n : Z) :
  (k < 6)%nat ->
  In (Py.decimal_string n) (nth k CARDS_NUMS []) <->
  1 <= n <= 63 /\ Z.land (Z.shiftr n (Z.of_nat k)) 1 = 1.
Proof.
  intros Hk. rewrite (nth_CARDS_NUMS k Hk), <- spec_card_In, in_map_iff.
  split.
  - intros [m [Hm Hin]]. apply decimal_string_inj in Hm. now subst m.
  - intros Hin. now exists n.
Qed.

Lemma card_NoDup (k : nat) : (k < 6)%nat -> NoDup (nth k CARDS_NUMS []).
Proof.
  intros Hk. rewrite (nth_CARDS_NUMS k Hk).
  apply Finite.Injective_map_NoDup.
  - intros n m. apply decimal_string_inj.
  - apply spec_card_NoDup.
Qed.

Lemma card_length (k : nat) :
  (k < 6)%nat -> List.length (nth k CARDS_NUMS []) = 32%nat.
Proof.
  intros Hk. rewrite (nth_CARDS_NUMS k Hk), length_map.
  do 6 (destruct k as [|k]; [vm_compute; reflexivity|]).
  lia.
Qed.

Lemma mapM_str (l : list Z) :
  Forall (fun n => 0 <= n <= Py.default_max_str_digits) l ->
  mapM Py.str l = Ok (map Py.decimal_string l).
Proof.
  induction 1 as [|n rest Hn _ IH]; simpl.
  - reflexivity.
  - rewrite (str_below n (small_below_limit n Hn)). simpl.
    now rewrite IH.
Qed.

Lemma spec_card_small (k : nat) :
  Forall (fun n => 0 <= n <= Py.default_max_str_digits) (spec_card k).
Proof.
  apply Forall_forall. intros n Hn. apply spec_card_In in Hn.
  unfold Py.default_max_str_digits. lia.
Qed.

(** Evaluating the class body raises nothing and yields [CARDS_NUMS]. *)
Lemma CARDS_NUMS_init_ok : CARDS_NUMS_init = Ok CARDS_NUMS.
Proof.
  unfold CARDS_NUMS_init, CARDS_NUMS.
  rewrite literals_are_spec_cards.
  induction (seq 0 6) as [|k ks IH]; simpl.
  - reflexivity.
  - rewrite (mapM_str _ (spec_card_small k)). simpl. now rewrite IH.
Qed.

(** Every number of [1..63] has one of its six low bits set. *)
Lemma some_bit_set (n : Z) :
  1 <= n <= 63 ->
  exists k, (k < 6)%nat /\ Z.land (Z.shiftr n (Z.of_nat k)) 1 = 1.
Proof.
  intros Hn.
  assert (Hall :
    forallb (fun m => existsb (fun k => bit_set k m) (seq 0 6)) (Zrange 1 63)
    = true) by (vm_compute; reflexivity).
  rewrite forallb_forall in Hall.
  specialize (Hall n ltac:(apply Zrange_In; simpl; lia)).
  apply existsb_exists in Hall. destruct Hall as [k [Hk Hb]].
  exists k. split.
  - apply in_seq in Hk. lia.
  - now apply Z.eqb_eq.
Qed.


(** ** How long an answer string [str] can still print *)

Lemma pow_block_lt (a b p q e f n : Z) :
  0 < n -> 0 <= e -> 0 <= f -> 0 <= p -> 0 <= q ->
  0 < a -> 0 < b ->
  a ^ e < b ^ f -> a ^ p < b ^ q ->
  a ^ (e * n + p) < b ^ (f * n + q).
Proof.
  intros Hn He Hf Hp Hq Ha Hb Hblock Hrest.
  rewrite !Z.pow_add_r, !Z.pow_mul_r by lia.
  assert (Hae : 0 < a ^ e) by (apply Z.pow_pos_nonneg; lia).
  assert (Hap : 0 < a ^ p) by (apply Z.pow_pos_nonneg; lia).
  assert (Hpow : (a ^ e) ^ n < (b ^ f) ^ n)
    by (apply Z.pow_lt_mono_l; lia).
  assert (Haen : 0 < (a ^ e) ^ n) by (apply Z.pow_pos_nonneg; lia).
  apply Z.mul_lt_mono_nonneg; lia.
Qed.

Lemma pow_block_le (a b p q e f n : Z) :
  0 < n -> 0 <= e -> 0 <= f -> 0 <= p -> 0 <= q ->
  0 < a -> 0 < b ->
  a ^ e <= b ^ f -> a ^ p <= b ^ q ->
  a ^ (e * n + p) <= b ^ (f * n + q).
Proof.
  intros Hn He Hf Hp Hq Ha Hb Hblock Hrest.
  rewrite !Z.pow_add_r, !Z.pow_mul_r by lia.
  assert (Hae : 0 < a ^ e) by (apply Z.pow_pos_nonneg; lia).
  assert (Hap : 0 < a ^ p) by (apply Z.pow_pos_nonneg; lia).
  assert (Hpow : (a ^ e) ^ n <= (b ^ f) ^ n)
    by (apply Z.pow_le_mono_l; lia).
  assert (Haen : 0 < (a ^ e) ^ n) by (apply Z.pow_pos_nonneg; lia).
  apply Z.mul_le_mono_nonneg; lia.
Qed.

(** [2 ^ 14284] still has 4300 digits; [2 ^ 14285] has 4301. *)
Lemma pow2_14284_below : 2 ^ 14284 < 10 ^ Py.default_max_str_digits.
Proof.
  change 14284 with (485 * 29 + 219).
  change Py.default_max_str_digits with (146 * 29 + 66).
  apply pow_block_lt; try (vm_compute; (reflexivity || discriminate)).
Qed.

Lemma pow2_14285_above : 10 ^ Py.default_max_str_digits <= 2 ^ 14285.
Proof.
  change 14285 with (2136 * 6 + 1469).
  change Py.default_max_str_digits with (643 * 6 + 442).
  apply pow_block_le; try (vm_compute; (reflexivity || discriminate)).
Qed.

Lemma get_result_returns (s : string) :
  (exists r, get_result s = Ok r) <->
  decimal_of s < 10 ^ Py.default_max_str_digits.
Proof.
  rewrite get_result_value, str_ok_iff.
  pose proof (decimal_of_bounds s) as [H0 _].
  now rewrite Z.abs_eq by exact H0.
Qed.

Lemma get_result_small (s : string) (n : Z) :
  decimal_of s = n ->
  0 <= n <= Py.default_max_str_digits ->
  get_result s = Ok (Py.decimal_string n).
Proof.
  intros <- Hn. rewrite get_result_value.
  apply str_below, small_below_limit, Hn.
Qed.

Lemma zeros_length (n : nat) : String.length (zeros n) = n.
Proof.
  unfold zeros. induction n as [|n IH]; simpl.
  - reflexivity.
  - now rewrite IH.
Qed.

Lemma loop_zeros (n : nat) :
  forall i d, get_result_loop i (zeros n) d = d.
Proof.
  unfold zeros. induction n as [|n IH]; intros i d; simpl.
  - reflexivity.
  - apply IH.
Qed.

Lemma decimal_of_zeros_one (n : nat) :
  decimal_of (zeros n ++ "1") = 2 ^ Z.of_nat n.
Proof.
  unfold decimal_of. rewrite loop_snoc. simpl Ascii.eqb. cbv iota.
  now rewrite loop_zeros, zeros_length, !Z.add_0_l.
Qed.

Lemma ones_length (n : nat) : String.length (ones n) = n.
Proof.
  unfold ones. induction n as [|n IH]; simpl.
  - reflexivity.
  - now rewrite IH.
Qed.

Lemma loop_ones (n : nat) :
  forall i d,
    0 <= i ->
    get_result_loop i (ones n) d = d + (2 ^ (i + Z.of_nat n) - 2 ^ i).
Proof.
  unfold ones. induction n as [|n IH]; intros i d Hi.
  - cbn [repeat string_of_list_ascii get_result_loop].
    rewrite Z.add_0_r. lia.
  - cbn [repeat string_of_list_ascii get_result_loop].
    change (Ascii.eqb "1" "1") with true. cbv iota.
    rewrite IH by lia.
    replace (i + 1 + Z.of_nat n) with (i + Z.of_nat (S n)) by lia.
    assert (Hp : 2 ^ (i + 1) = 2 * 2 ^ i)
      by (rewrite Z.pow_add_r by lia; lia).
    lia.
Qed.

Lemma pow2_14285_strictly_above :
  10 ^ Py.default_max_str_digits < 2 ^ 14285.
Proof.
  change 14285 with (2136 * 6 + 1469).
  change Py.default_max_str_digits with (643 * 6 + 442).
  apply pow_block_lt; try (vm_compute; (reflexivity || discriminate)).
Qed.

(** The bound 14284 cannot be raised: 14285 answers that are all Yes
    already make [str] raise. *)
Lemma all_yes_14285_raises :
  get_result (ones (Z.to_nat 14285)) = Raise ValueError.
Proof.
  rewrite get_result_value. apply str_above.
  pose proof (decimal_of_bounds (ones (Z.to_nat 14285))) as [H0 _].
  rewrite Z.abs_eq by exact H0.
  unfold decimal_of. rewrite loop_ones by reflexivity.
  rewrite Z2Nat.id by discriminate.
  rewrite !Z.add_0_l, Z.pow_0_r.
  pose proof pow2_14285_strictly_above as Hlt.
  revert Hlt.
  generalize (10 ^ Py.default_max_str_digits) (2 ^ 14285).
  intros a b Hlt. lia.
Qed.


(** ** A round of the game *)

Section Round.

(** The number the player has in mind. *)
Variable n : Z.

Lemma show_card (k : nat) (s : string) :
  (k < 6)%nat ->
  show_next_card {| answers := s; card_num := Z.of_nat k |} =
  Ok (GAME (nth k CARDS_NUMS [])).
Proof.
  intros Hk.
  do 6 (destruct k as [|k]; [reflexivity|]).
  lia.
Qed.

Lemma show_result (s : string) :
  show_next_card {| answers := s; card_num := 6 |} =
  (r <- get_result s ;; Ok (RESULT r)).
Proof. reflexivity. Qed.

(** The state of a round after the truthful player has answered the first
    [k] cards. *)
Lemma play_step (k fuel : nat) :
  (k < 6)%nat ->
  play (S fuel) n
    {| answers := answer_string (map (on_card n) (firstn k CARDS_NUMS));
       card_num := Z.of_nat k |} =
  play fuel n
    {| answers := answer_string (map (on_card n) (firstn (S k) CARDS_NUMS));
       card_num := Z.of_nat (S k) |}.
Proof.
  intros Hk. cbn [play]. rewrite (show_card k _ Hk).
  do 6 (destruct k as [|k]; [reflexivity|]).
  lia.
Qed.

Lemma play_round :
  play 7 n start_game =
  Some (get_result (answer_string (map (on_card n) CARDS_NUMS))).
Proof.
  change start_game with
    {| answers := answer_string (map (on_card n) (firstn 0 CARDS_NUMS));
       card_num := Z.of_nat 0 |}.
  do 6 (rewrite play_step by lia).
  cbn [play]. change (Z.of_nat 6) with 6. rewrite show_result.
  change (firstn 6 CARDS_NUMS) with CARDS_NUMS.
  now destruct (get_result (answer_string (map (on_card n) CARDS_NUMS))).
Qed.

(** With fewer than seven steps the round has not reached the result. *)
Lemma play_needs_seven : play 6 n start_game = None.
Proof. reflexivity. Qed.

(** The truthful answers are the six low bits of the number. *)
Lemma truthful_answers :
  1 <= n <= 63 ->
  map (on_card n) CARDS_NUMS =
  map (fun k => Z.testbit n (Z.of_nat k)) (seq 0 6).
Proof.
  intros Hn.
  assert (Hall :
    forallb (fun m =>
               forallb (fun k => Bool.eqb (on_card m (nth k CARDS_NUMS []))
                                          (Z.testbit m (Z.of_nat k)))
                       (seq 0 6))
            (Zrange 1 63) = true) by (vm_compute; reflexivity).
  rewrite forallb_forall in Hall.
  specialize (Hall n ltac:(apply Zrange_In; simpl; lia)).
  rewrite forallb_forall in Hall.
  change CARDS_NUMS with (map (fun k => nth k CARDS_NUMS []) (seq 0 6)).
  rewrite map_map. apply map_ext_in. intros k Hk.
  now apply Bool.eqb_prop, Hall.
Qed.

(** Six bits of a number below 64 sum back to the number. *)
Lemma decimal_of_bits :
  0 <= n <= 63 ->
  decimal_of
    (answer_string (map (fun k => Z.testbit n (Z.of_nat k)) (seq 0 6))) = n.
Proof.
  intros Hn.
  assert (Hall :
    forallb (fun m =>
               decimal_of
                 (answer_string
                    (map (fun k => Z.testbit m (Z.of_nat k)) (seq 0 6))) =? m)
            (Zrange 0 64) = true) by (vm_compute; reflexivity).
  rewrite forallb_forall in Hall.
  apply Z.eqb_eq, Hall, Zrange_In. simpl. lia.
Qed.

End Round.

(** * The claims *)

(** C1. Round trip: for every [n] in [1..63], the six answers that say
    whether [n] is on card [k] -- which are the six low bits of [n] -- are
    decoded to the numeral of [n]; a whole round played by a truthful
    player shows that numeral. *)
Theorem round_trip (n : Z) :
  1 <= n <= 63 ->
  map (on_card n) CARDS_NUMS =
    map (fun k => Z.testbit n (Z.of_nat k)) (seq 0 6)
  /\ decimal_of (answer_string (map (on_card n) CARDS_NUMS)) = n
  /\ get_result (answer_string (map (on_card n) CARDS_NUMS)) =
       Ok (Py.decimal_string n)
  /\ play 7 n start_game = Some (Ok (Py.decimal_string n)).
Proof.
  intros Hn.
  pose proof (truthful_answers n Hn) as Hbits.
  assert (Hdec : decimal_of (answer_string (map (on_card n) CARDS_NUMS)) = n).
  { rewrite Hbits. apply decimal_of_bits. lia. }
  assert (Hres : get_result (answer_string (map (on_card n) CARDS_NUMS)) =
                 Ok (Py.decimal_string n)).
  { apply get_result_small; [exact Hdec|].
    unfold Py.default_max_str_digits. lia. }
  split; [exact Hbits|]. split; [exact Hdec|]. split; [exact Hres|].
  now rewrite play_round, Hres.
Qed.

Lemma round_trip_witness :
  1 <= 37 <= 63 /\ play 7 37 start_game = Some (Ok "37").
Proof.
  split; [lia|].
  exact (proj2 (proj2 (proj2 (round_trip 37 ltac:(lia))))).
Defined.

(** C2. Decoder contract: on six answers the decoder returns the numeral of
    the sum over [i] in [0..5] of [2 ^ i] for the answers that are true, and
    that sum lies in [0..63]. *)
Theorem decode_contract (clicks : list bool) :
  List.length clicks = 6%nat ->
  get_result (answer_string clicks) =
    Ok (Py.decimal_string (spec_decode clicks))
  /\ 0 <= spec_decode clicks <= 63.
Proof.
  intros Hlen.
  destruct clicks as [|b0 [|b1 [|b2 [|b3 [|b4 [|b5 [|b6 rest]]]]]]];
    try discriminate Hlen.
  assert (Hrange : 0 <= spec_decode [b0; b1; b2; b3; b4; b5] <= 63)
    by (destruct b0, b1, b2, b3, b4, b5; vm_compute; split; discriminate).
  split; [|exact Hrange].
  apply get_result_small.
  - destruct b0, b1, b2, b3, b4, b5; vm_compute; reflexivity.
  - unfold Py.default_max_str_digits. lia.
Qed.

Lemma decode_contract_witness :
  List.length [true; false; true; true; false; false] = 6%nat
  /\ get_result "101100" = Ok "13".
Proof.
  split; [reflexivity|].
  exact (proj1 (decode_contract [true; false; true; true; false; false]
                  eq_refl)).
Defined.

(** C3. Card content: building the table raises nothing, and card [k], for
    [k] in [0..5], lists exactly the numerals of the numbers of [1..63]
    whose bit [k] is set: [(n >> k) & 1 == 1]. *)
Theorem card_content (k : nat) :
  (k < 6)%nat ->
  CARDS_NUMS_init = Ok CARDS_NUMS
  /\ List.length CARDS_NUMS = 6%nat
  /\ nth k CARDS_NUMS [] = map Py.decimal_string (spec_card k)
  /\ (forall n : Z,
        In (Py.decimal_string n) (nth k CARDS_NUMS []) <->
        1 <= n <= 63 /\ Z.land (Z.shiftr n (Z.of_nat k)) 1 = 1).
Proof.
  intros Hk. split; [exact CARDS_NUMS_init_ok|]. split; [reflexivity|]. split.
  - now apply nth_CARDS_NUMS.
  - intros n. now apply card_membership.
Qed.

Lemma card_content_witness :
  (2 < 6)%nat
  /\ In "44" (nth 2 CARDS_NUMS [])
  /\ ~ In "41" (nth 2 CARDS_NUMS []).
Proof.
  split; [lia|].
  pose proof (proj2 (proj2 (proj2 (card_content 2%nat ltac:(lia))))) as H.
  split.
  - apply (H 44). vm_compute. repeat split; discriminate.
  - intros Hin. apply (H 41) in Hin. destruct Hin as [_ Hbit].
    vm_compute in Hbit. discriminate Hbit.
Defined.

(** C4. Card cardinality: there are six cards, and each of them has 32
    entries, all different. *)
Theorem card_cardinality :
  List.length CARDS_NUMS = 6%nat
  /\ (forall k : nat,
        (k < 6)%nat ->
        List.length (nth k CARDS_NUMS []) = 32%nat
        /\ NoDup (nth k CARDS_NUMS [])).
Proof.
  split.
  - reflexivity.
  - intros k Hk. split.
    + now apply card_length.
    + now apply card_NoDup.
Qed.

Lemma card_cardinality_witness :
  (5 < 6)%nat /\ List.length (nth 5 CARDS_NUMS []) = 32%nat.
Proof.
  split; [lia|].
  exact (proj1 (proj2 card_cardinality 5%nat ltac:(lia))).
Defined.

(** C5. Card coverage: every number of [1..63] is on at least one of the
    six cards, and [0] is on none. *)
Theorem card_coverage :
  (forall n : Z,
     1 <= n <= 63 ->
     exists k : nat,
       (k < 6)%nat /\ In (Py.decimal_string n) (nth k CARDS_NUMS []))
  /\ (forall card : list string,
        In card CARDS_NUMS -> ~ In (Py.decimal_string 0) card).
Proof.
  split.
  - intros n Hn. destruct (some_bit_set n Hn) as [k [Hk Hbit]].
    exists k. split; [exact Hk|].
    apply card_membership; [exact Hk|]. now split.
  - intros card Hcard Hin.
    destruct (In_nth _ _ [] Hcard) as [k [Hk Hnth]].
    change (List.length CARDS_NUMS) with 6%nat in Hk.
    rewrite <- Hnth in Hin.
    apply card_membership in Hin; [lia|exact Hk].
Qed.

Lemma card_coverage_witness :
  1 <= 40 <= 63
  /\ exists k : nat, (k < 6)%nat /\ In "40" (nth k CARDS_NUMS []).
Proof.
  split; [lia|].
  exact (proj1 card_coverage 40 ltac:(lia)).
Defined.

(** C6. The slice [binary_string[::+1]] returns the string unchanged, so
    [get_result] agrees on every string with the positional decoder that
    takes answer [i] as bit [i] without any reversal. *)
Theorem reversal_is_noop :
  (forall s : string, Py.slice_step s 1 = Ok s)
  /\ (forall s : string, get_result s = decode_positional s).
Proof.
  split.
  - exact slice_step_one.
  - intros s. unfold decode_positional.
    now rewrite get_result_value, decimal_of_positional.
Qed.

(** A slice that does reverse, [[::-1]], is no identity. *)
Example genuine_reversal : Py.slice_step "100000" (-1) = Ok "000001".
Proof. reflexivity. Qed.

(** C7, as stated, fails: on an answer string of 14286 characters whose
    last one is ['1'] the sum is [2 ^ 14285], a number of 4301 digits, and
    [str] raises [ValueError] instead of returning. *)
Lemma decoder_raises_on_long_input :
  String.length long_input = Z.to_nat 14286
  /\ get_result long_input = Raise ValueError
  /\ ~ (forall s : string, exists r : string, get_result s = Ok r).
Proof.
  assert (Hraise : get_result long_input = Raise ValueError).
  { rewrite get_result_value. unfold long_input.
    rewrite decimal_of_zeros_one, Z2Nat.id by lia.
    apply str_above.
    rewrite Z.abs_eq by (apply Z.pow_nonneg; lia).
    exact pow2_14285_above. }
  split; [|split].
  - unfold long_input.
    assert (Happ : forall a b : string,
               String.length (a ++ b) =
               (String.length a + String.length b)%nat).
    { intros a b. induction a as [|c a IH]; simpl; [reflexivity|].
      now rewrite IH. }
    rewrite Happ, zeros_length. simpl String.length. lia.
  - exact Hraise.
  - intros Hall. destruct (Hall long_input) as [r Hr].
    rewrite Hraise in Hr. discriminate Hr.
Qed.

(** C7, amended. The decoder validates nothing and returns a result for
    every answer string of at most 14284 characters, whatever its length
    within that bound and whatever its characters. *)
Theorem decoder_total_within_limit (s : string) :
  Z.of_nat (String.length s) <= 14284 ->
  exists r : string,
    get_result s = Ok r /\ r = Py.decimal_string (decimal_of s).
Proof.
  intros Hlen.
  assert (Hbelow : Z.abs (decimal_of s) < 10 ^ Py.default_max_str_digits).
  { pose proof (decimal_of_bounds s) as [H0 Hlt].
    rewrite Z.abs_eq by exact H0.
    apply Z.lt_le_trans with (m := 2 ^ Z.of_nat (String.length s));
      [exact Hlt|].
    apply Z.le_trans with (m := 2 ^ 14284).
    - apply Z.pow_le_mono_r; [reflexivity|exact Hlen].
    - apply Z.lt_le_incl, pow2_14284_below. }
  exists (Py.decimal_string (decimal_of s)). split; [|reflexivity].
  rewrite get_result_value. now apply str_below.
Qed.

Lemma decoder_total_within_limit_witness :
  Z.of_nat (String.length "1101") <= 14284
  /\ exists r : string, get_result "1101" = Ok r /\ r = "11".
Proof.
  split; [simpl; lia|].
  exact (decoder_total_within_limit "1101" ltac:(simpl; lia)).
Defined.

(** C8. Six No answers decode to 0, six Yes answers to 63, a single Yes on
    the first card to 1 and a single Yes on the second card to 2. *)
Theorem decode_values :
  get_result (answer_string [false; false; false; false; false; false]) =
    Ok "0"
  /\ get_result (answer_string [true; true; true; true; true; true]) =
       Ok "63"
  /\ get_result (answer_string [true; false; false; false; false; false]) =
       Ok "1"
  /\ get_result (answer_string [false; true; false; false; false; false]) =
       Ok "2".
Proof.
  assert (Hsmall : forall n, 0 <= n <= 63 ->
                     0 <= n <= Py.default_max_str_digits)
    by (unfold Py.default_max_str_digits; lia).
  split; [|split; [|split]].
  - apply (get_result_small "000000" 0); [reflexivity|apply Hsmall; lia].
  - apply (get_result_small "111111" 63); [reflexivity|apply Hsmall; lia].
  - apply (get_result_small "100000" 1); [reflexivity|apply Hsmall; lia].
  - apply (get_result_small "010000" 2); [reflexivity|apply Hsmall; lia].
Qed.

(** C9. Order sensitivity: a single Yes moved from the first card to the
    second is a permutation of the six answers that changes the result. *)
Theorem decode_order_sensitive :
  exists clicks permuted : list bool,
    List.length clicks = 6%nat
    /\ Permutation clicks permuted
    /\ get_result (answer_string permuted) <>
       get_result (answer_string clicks).
Proof.
  exists [true; false; false; false; false; false],
         [false; true; false; false; false; false].
  split; [reflexivity|]. split; [apply perm_swap|].
  rewrite (get_result_small (answer_string [false; true; false; false; false; false]) 2),
          (get_result_small (answer_string [true; false; false; false; false; false]) 1);
    try reflexivity; try (unfold Py.default_max_str_digits; lia).
  discriminate.
Qed.

(** C10. Lenient input: on every string the decoder prints the sum of the
    contributions of its positions, where position [i] adds [2 ^ i] when
    its character is ['1'] and nothing for any other character; a further
    character at the end changes the sum by its own contribution only; and
    the empty string decodes to 0. *)
Theorem lenient_input :
  (forall s : string, get_result s = Py.str (positional_sum s))
  /\ (forall (s : string) (i : nat) (c : ascii),
        String.get i s = Some c ->
        (c = "1"%char -> contribution s i = 2 ^ Z.of_nat i)
        /\ (c <> "1"%char -> contribution s i = 0))
  /\ (forall (s : string) (c : ascii),
        decimal_of (s ++ String c EmptyString) =
        decimal_of s +
        (if Ascii.eqb c "1" then 2 ^ Z.of_nat (String.length s) else 0))
  /\ get_result "" = Ok "0".
Proof.
  split; [|split; [|split]].
  - intros s. now rewrite get_result_value, decimal_of_positional.
  - intros s i c Hget. unfold contribution. rewrite Hget. split.
    + intros ->. reflexivity.
    + intros Hc. apply Ascii.eqb_neq in Hc. now rewrite Hc.
  - intros s c. unfold decimal_of. rewrite loop_snoc, Z.add_0_l.
    destruct (Ascii.eqb c "1"); lia.
  - apply (get_result_small "" 0); [reflexivity|].
    unfold Py.default_max_str_digits. lia.
Qed.

Lemma lenient_input_witness :
  String.get 1 "1x10" = Some "x"%char
  /\ contribution "1x10" 1 = 0
  /\ positional_sum "1x10" = 5.
Proof.
  split; [reflexivity|]. split; [|reflexivity].
  apply (proj2 (proj1 (proj2 lenient_input) "1x10" 1%nat "x"%char eq_refl)).
  discriminate.
Defined.

(** * Further properties of the code *)

(** ** More on the decoding loop *)

Lemma loop_app (s1 s2 : string) :
  forall i d,
    get_result_loop i (s1 ++ s2) d =
    get_result_loop (i + Z.of_nat (String.length s1)) s2
      (get_result_loop i s1 d).
Proof.
  induction s1 as [|bit rest IH]; intros i d.
  - simpl. now rewrite Z.add_0_r.
  - cbn [append get_result_loop String.length]. rewrite IH.
    now replace (i + 1 + Z.of_nat (String.length rest))
      with (i + Z.of_nat (S (String.length rest))) by lia.
Qed.

(** Starting the count one position later doubles every power. *)
Lemma loop_shift (s : string) :
  forall i,
    0 <= i -> get_result_loop (i + 1) s 0 = 2 * get_result_loop i s 0.
Proof.
  induction s as [|bit rest IH]; intros i Hi; cbn [get_result_loop].
  - reflexivity.
  - assert (Hp : 2 ^ (i + 1) = 2 * 2 ^ i)
      by (rewrite Z.pow_add_r by lia; lia).
    destruct (Ascii.eqb bit "1").
    + rewrite (loop_accumulator rest (i + 1 + 1) (0 + 2 ^ (i + 1))),
              (loop_accumulator rest (i + 1) (0 + 2 ^ i)).
      rewrite IH by lia. lia.
    + apply IH. lia.
Qed.

Lemma loop_scale (s : string) (k : nat) :
  get_result_loop (Z.of_nat k) s 0 = 2 ^ Z.of_nat k * decimal_of s.
Proof.
  induction k as [|k IH].
  - unfold decimal_of. change (Z.of_nat 0) with 0.
    rewrite Z.pow_0_r. lia.
  - replace (Z.of_nat (S k)) with (Z.of_nat k + 1) by lia.
    rewrite loop_shift by lia. rewrite IH.
    rewrite Z.pow_add_r by lia. lia.
Qed.

Lemma decimal_of_app (s1 s2 : string) :
  decimal_of (s1 ++ s2) =
  decimal_of s1 + 2 ^ Z.of_nat (String.length s1) * decimal_of s2.
Proof.
  unfold decimal_of at 1. rewrite loop_app, Z.add_0_l.
  rewrite loop_accumulator, loop_scale. reflexivity.
Qed.

Lemma decimal_of_cons (c : ascii) (s : string) :
  decimal_of (String c s) =
  2 * decimal_of s + Z.b2z (Ascii.eqb c "1").
Proof.
  change (String c s) with (String c EmptyString ++ s).
  rewrite decimal_of_app. unfold decimal_of at 1.
  cbn [get_result_loop String.length].
  destruct (Ascii.eqb c "1"); simpl Z.b2z; simpl Z.of_nat; lia.
Qed.

Lemma answer_string_snoc (clicks : list bool) (b : bool) :
  answer_string (clicks ++ [b]) =
  answer_string clicks ++ String (answer_char b) EmptyString.
Proof.
  unfold answer_string. induction clicks as [|a rest IH]; simpl.
  - reflexivity.
  - now rewrite IH.
Qed.

Lemma answer_string_length (clicks : list bool) :
  String.length (answer_string clicks) = List.length clicks.
Proof.
  unfold answer_string. induction clicks as [|a rest IH]; simpl.
  - reflexivity.
  - now rewrite IH.
Qed.

Lemma answer_char_is_one (b : bool) : Ascii.eqb (answer_char b) "1" = b.
Proof. now destruct b. Qed.

Lemma bits_length (n : Z) (len : nat) : List.length (bits n len) = len.
Proof. unfold bits. now rewrite length_map, length_seq. Qed.

Lemma decimal_of_low_bits (n : Z) (len : nat) :
  decimal_of (answer_string (bits n len)) = n mod 2 ^ Z.of_nat len.
Proof.
  induction len as [|len IH].
  - simpl. now rewrite Z.mod_1_r.
  - unfold bits in *. rewrite seq_S, map_app. cbn [map Nat.add].
    rewrite answer_string_snoc, decimal_of_app, IH.
    rewrite answer_string_length, length_map, length_seq.
    unfold decimal_of. cbn [get_result_loop].
    rewrite answer_char_is_one.
    replace (Z.of_nat (S len)) with (Z.of_nat len + 1) by lia.
    rewrite Z.pow_add_r by lia. change (2 ^ 1) with 2.
    assert (Hpos : 0 < 2 ^ Z.of_nat len) by (apply Z.pow_pos_nonneg; lia).
    rewrite Z.rem_mul_r by lia.
    pose proof (Z.testbit_spec' n (Z.of_nat len) ltac:(lia)) as Hbit.
    rewrite <- Hbit.
    destruct (Z.testbit n (Z.of_nat len)); simpl Z.b2z; lia.
Qed.

Lemma low_bits_of_decimal (clicks : list bool) :
  bits (decimal_of (answer_string clicks)) (List.length clicks) = clicks.
Proof.
  induction clicks as [|b rest IH].
  - reflexivity.
  - unfold bits in *. cbn [List.length].
    rewrite <- cons_seq, <- seq_shift, map_cons, map_map.
    change (answer_string (b :: rest))
      with (String (answer_char b) (answer_string rest)).
    rewrite decimal_of_cons, answer_char_is_one.
    f_equal.
    + apply Z.testbit_0_r.
    + rewrite <- IH at 2. apply map_ext. intros k.
      replace (Z.of_nat (S k)) with (Z.succ (Z.of_nat k)) by lia.
      apply Z.testbit_succ_r. lia.
Qed.

Lemma below_limit_by_length (s : string) :
  Z.of_nat (String.length s) <= 14284 ->
  Z.abs (decimal_of s) < 10 ^ Py.default_max_str_digits.
Proof.
  intros Hlen. pose proof (decimal_of_bounds s) as [H0 Hlt].
  rewrite Z.abs_eq by exact H0.
  apply Z.lt_le_trans with (m := 2 ^ Z.of_nat (String.length s));
    [exact Hlt|].
  apply Z.le_trans with (m := 2 ^ 14284).
  - apply Z.pow_le_mono_r; [reflexivity|exact Hlen].
  - apply Z.lt_le_incl, pow2_14284_below.
Qed.

Lemma get_result_by_length (s : string) :
  Z.of_nat (String.length s) <= 14284 ->
  get_result s = Ok (Py.decimal_string (decimal_of s)).
Proof.
  intros Hlen. rewrite get_result_value.
  now apply str_below, below_limit_by_length.
Qed.

Lemma decimal_of_clicks (clicks : list bool) :
  List.length clicks = 6%nat ->
  decimal_of (answer_string clicks) = spec_decode clicks.
Proof.
  intros Hlen.
  destruct clicks as [|b0 [|b1 [|b2 [|b3 [|b4 [|b5 [|b6 rest]]]]]]];
    try discriminate Hlen.
  destruct b0, b1, b2, b3, b4, b5; vm_compute; reflexivity.
Qed.

Lemma on_card_In (n : Z) (card : list string) :
  on_card n card = true <-> In (Py.decimal_string n) card.
Proof.
  unfold on_card. rewrite existsb_exists. split.
  - intros [x [Hin Heq]]. apply String.eqb_eq in Heq. now subst x.
  - intros Hin. exists (Py.decimal_string n). split; [exact Hin|].
    apply String.eqb_refl.
Qed.

Lemma CARDS_NUMS_by_index :
  CARDS_NUMS = map (fun k => nth k CARDS_NUMS []) (seq 0 6).
Proof. reflexivity. Qed.

Lemma decimal_of_truthful (n : Z) :
  1 <= n <= 63 ->
  decimal_of (answer_string (map (on_card n) CARDS_NUMS)) = n.
Proof.
  intros Hn. rewrite (truthful_answers n Hn). apply decimal_of_bits. lia.
Qed.

(** ** Further theorems on the decoder and the cards *)

(** X1. Decoding a concatenation: the second part counts with the weight
    [2 ^ length] of the first, on all strings. *)
Theorem decode_concatenation (s1 s2 : string) :
  decimal_of (s1 ++ s2) =
    decimal_of s1 + 2 ^ Z.of_nat (String.length s1) * decimal_of s2
  /\ get_result (s1 ++ s2) =
       Py.str (decimal_of s1
               + 2 ^ Z.of_nat (String.length s1) * decimal_of s2).
Proof.
  split.
  - apply decimal_of_app.
  - now rewrite get_result_value, decimal_of_app.
Qed.

(** X2. Whatever its characters, a string of at most six characters is
    decoded without an error to the numeral of a number of [0..63]. *)
Theorem decode_any_six_characters (s : string) :
  Z.of_nat (String.length s) <= 6 ->
  exists n : Z, 0 <= n <= 63 /\ get_result s = Ok (Py.decimal_string n).
Proof.
  intros Hlen. exists (decimal_of s). split.
  - pose proof (decimal_of_bounds s) as [H0 Hlt].
    assert (Hpow : 2 ^ Z.of_nat (String.length s) <= 2 ^ 6)
      by (apply Z.pow_le_mono_r; lia).
    change (2 ^ 6) with 64 in Hpow. lia.
  - apply get_result_by_length. lia.
Qed.

Lemma decode_any_six_characters_witness :
  Z.of_nat (String.length "1x 1?1") <= 6
  /\ exists n : Z, 0 <= n <= 63 /\ get_result "1x 1?1" = Ok (Py.decimal_string n).
Proof.
  split; [simpl; lia|].
  exact (decode_any_six_characters "1x 1?1" ltac:(simpl; lia)).
Defined.

(** X3. Decoding the [len] low bits of any integer [n], lowest bit first,
    gives [n mod 2 ^ len]. *)
Theorem decode_low_bits (n : Z) (len : nat) :
  decimal_of (answer_string (bits n len)) = n mod 2 ^ Z.of_nat len
  /\ get_result (answer_string (bits n len)) =
       Py.str (n mod 2 ^ Z.of_nat len).
Proof.
  split.
  - apply decimal_of_low_bits.
  - now rewrite get_result_value, decimal_of_low_bits.
Qed.

(** X4. The decoder loses nothing on answers: the answers are the low bits
    of the decoded number, so two answer sequences of the same length, of
    at most 14284 answers, with the same result are the same. *)
Theorem decode_injective (c1 c2 : list bool) :
  List.length c1 = List.length c2 ->
  Z.of_nat (List.length c1) <= 14284 ->
  get_result (answer_string c1) = get_result (answer_string c2) ->
  bits (decimal_of (answer_string c1)) (List.length c1) = c1 /\ c1 = c2.
Proof.
  intros Hlen Hmax Heq. split; [apply low_bits_of_decimal|].
  rewrite !get_result_by_length in Heq
    by (rewrite answer_string_length; lia).
  injection Heq as Heq. apply decimal_string_inj in Heq.
  rewrite <- (low_bits_of_decimal c1), <- (low_bits_of_decimal c2).
  now rewrite Heq, Hlen.
Qed.

Lemma decode_injective_witness :
  List.length [true; false; true] = List.length [true; false; true]
  /\ Z.of_nat (List.length [true; false; true]) <= 14284
  /\ bits (decimal_of (answer_string [true; false; true])) 3
     = [true; false; true].
Proof.
  split; [reflexivity|]. split; [simpl; lia|].
  exact (proj1 (decode_injective [true; false; true] [true; false; true]
                  eq_refl ltac:(simpl; lia) eq_refl)).
Defined.

(** X5. The six cards tell all numbers of [1..63] apart: two numbers with
    the same truthful answers are equal. *)
Theorem cards_distinguish_numbers (n m : Z) :
  1 <= n <= 63 -> 1 <= m <= 63 ->
  map (on_card n) CARDS_NUMS = map (on_card m) CARDS_NUMS ->
  n = m.
Proof.
  intros Hn Hm Heq.
  rewrite <- (decimal_of_truthful n Hn), <- (decimal_of_truthful m Hm).
  now rewrite Heq.
Qed.

Lemma cards_distinguish_numbers_witness :
  1 <= 21 <= 63 /\ 21 = 21.
Proof.
  split; [lia|].
  exact (cards_distinguish_numbers 21 21 ltac:(lia) ltac:(lia) eq_refl).
Defined.

(** X6. A number outside [1..63] is on no card: the truthful answers are
    six times No and the round shows 0. *)
Theorem outside_range_decodes_to_zero (n : Z) :
  ~ (1 <= n <= 63) ->
  map (on_card n) CARDS_NUMS = repeat false 6
  /\ play 7 n start_game = Some (Ok "0").
Proof.
  intros Hout.
  assert (Hno : map (on_card n) CARDS_NUMS = repeat false 6).
  { rewrite CARDS_NUMS_by_index, map_map.
    change (repeat false 6) with (map (fun _ : nat => false) (seq 0 6)).
    apply map_ext_in. intros k Hk. apply in_seq in Hk.
    destruct (on_card n (nth k CARDS_NUMS [])) eqn:Hon; [|reflexivity].
    apply on_card_In in Hon.
    apply card_membership in Hon; [|lia].
    destruct Hon as [Hrange _]. contradiction. }
  split; [exact Hno|].
  assert (Hzero : get_result (answer_string (repeat false 6)) = Ok "0").
  { apply (get_result_small "000000" 0); [reflexivity|].
    unfold Py.default_max_str_digits. lia. }
  now rewrite play_round, Hno, Hzero.
Qed.

Lemma outside_range_decodes_to_zero_witness :
  ~ (1 <= 64 <= 63) /\ play 7 64 start_game = Some (Ok "0").
Proof.
  split; [lia|].
  exact (proj2 (outside_range_decodes_to_zero 64 ltac:(lia))).
Defined.

(** X7. The sum of the first labels: the first label of card [k] is the
    numeral of [2 ^ k], and six answers are decoded to the sum of the first
    numbers of the cards answered with Yes. *)
Theorem first_labels_sum (answered : list bool) :
  List.length answered = 6%nat ->
  (forall k : nat,
     (k < 6)%nat ->
     hd "" (nth k CARDS_NUMS []) = Py.decimal_string (2 ^ Z.of_nat k)
     /\ hd 0 (nth k CARDS_LITERALS []) = 2 ^ Z.of_nat k)
  /\ get_result (answer_string answered) =
       Ok (Py.decimal_string
             (Zsum (map (fun k => if nth k answered false
                                  then hd 0 (nth k CARDS_LITERALS [])
                                  else 0)
                        (seq 0 6)))).
Proof.
  intros Hlen. split.
  - intros k Hk.
    do 6 (destruct k as [|k]; [split; reflexivity|]). lia.
  - rewrite get_result_by_length
      by (rewrite answer_string_length, Hlen; simpl; lia).
    rewrite (decimal_of_clicks answered Hlen).
    reflexivity.
Qed.

Lemma first_labels_sum_witness :
  List.length [true; true; false; false; false; true] = 6%nat
  /\ get_result "110001" = Ok "35".
Proof.
  split; [reflexivity|].
  exact (proj2 (first_labels_sum [true; true; false; false; false; true]
                  eq_refl)).
Defined.

(** ** The grid of a number card *)

Lemma grid_of_cons (cols : Z) (start : nat) (num : string)
      (rest : list string) :
  grid_of cols start (num :: rest) =
  {| text := num;
     row := Z.of_nat start / cols;
     col := Z.of_nat start mod cols |} :: grid_of cols (S start) rest.
Proof. reflexivity. Qed.

Lemma add_labels_grid (cols : Z) (numbers : list string) :
  cols <> 0 \/ numbers = [] ->
  forall (i : nat) (grid : list cell),
    add_labels cols (Z.of_nat i) numbers grid =
    Done (grid ++ grid_of cols i numbers)%list.
Proof.
  intros Hcols. induction numbers as [|num rest IH]; intros i grid.
  - simpl. now rewrite app_nil_r.
  - destruct Hcols as [Hcols|Hnil]; [|discriminate Hnil].
    cbn [add_labels]. unfold divmod.
    destruct (Z.eqb_spec cols 0) as [H0|_]; [contradiction|].
    cbn [obind fst snd].
    replace (Z.of_nat i + 1) with (Z.of_nat (S i)) by lia.
    rewrite (IH (or_introl Hcols)), grid_of_cons, <- app_assoc.
    reflexivity.
Qed.

Lemma add_labels_zero_columns (i : Z) (num : string) (rest : list string)
      (grid : list cell) :
  add_labels 0 i (num :: rest) grid = Fault ZeroDivisionError.
Proof. reflexivity. Qed.

Lemma NumberCard_grid (numbers : list string) :
  NumberCard numbers =
  Done (grid_of (Z.min 8 (Z.of_nat (List.length numbers))) 0 numbers).
Proof.
  unfold NumberCard. change 0 with (Z.of_nat 0) at 1.
  rewrite add_labels_grid.
  - reflexivity.
  - destruct numbers as [|num rest]; [now right|left].
    cbn [List.length]. lia.
Qed.

Lemma grid_of_text (cols : Z) (numbers : list string) :
  forall start, map text (grid_of cols start numbers) = numbers.
Proof.
  induction numbers as [|num rest IH]; intros start.
  - reflexivity.
  - rewrite grid_of_cons. cbn [map text]. now rewrite IH.
Qed.

Lemma grid_of_nth (cols : Z) (numbers : list string) :
  forall (start i : nat),
    (i < List.length numbers)%nat ->
    nth_error (grid_of cols start numbers) i =
    Some {| text := nth i numbers "";
            row := Z.of_nat (start + i) / cols;
            col := Z.of_nat (start + i) mod cols |}.
Proof.
  induction numbers as [|num rest IH]; intros start i Hi.
  - simpl in Hi. lia.
  - rewrite grid_of_cons. destruct i as [|i].
    + cbn [nth_error nth]. now rewrite Nat.add_0_r.
    + cbn [nth_error nth]. cbn [List.length] in Hi.
      rewrite IH by lia.
      now replace (S start + i)%nat with (start + S i)%nat by lia.
Qed.

Lemma grid_of_In (cols : Z) (numbers : list string) (c : cell) :
  In c (grid_of cols 0 numbers) <->
  exists i : nat,
    (i < List.length numbers)%nat
    /\ c = {| text := nth i numbers "";
              row := Z.of_nat i / cols;
              col := Z.of_nat i mod cols |}.
Proof.
  split.
  - intros Hin. apply In_nth_error in Hin. destruct Hin as [i Hi].
    assert (Hlt : (i < List.length numbers)%nat).
    { assert (Hsome : nth_error (grid_of cols 0 numbers) i <> None)
        by (rewrite Hi; discriminate).
      apply nth_error_Some in Hsome.
      unfold grid_of in Hsome.
      rewrite length_map, length_combine, length_seq in Hsome. lia. }
    exists i. split; [exact Hlt|].
    rewrite (grid_of_nth cols numbers 0 i Hlt) in Hi.
    now injection Hi as <-.
  - intros [i [Hlt ->]].
    apply (nth_error_In _ i). now rewrite grid_of_nth.
Qed.

(** X8. Building a number card never fails, whatever the list of labels:
    it puts every label on the grid, in order.  For the empty list the
    number of columns is 0, and it is only because the loop then has
    nothing to place that no division by zero is ever made. *)
Theorem number_card_never_faults (numbers : list string) :
  (exists grid : list cell,
     NumberCard numbers = Done grid /\ map text grid = numbers)
  /\ NumberCard [] = Done []
  /\ (forall (i : Z) (num : string) (rest : list string) (grid : list cell),
        add_labels 0 i (num :: rest) grid = Fault ZeroDivisionError).
Proof.
  split; [|split].
  - exists (grid_of (Z.min 8 (Z.of_nat (List.length numbers))) 0 numbers).
    split; [apply NumberCard_grid|apply grid_of_text].
  - reflexivity.
  - exact add_labels_zero_columns.
Qed.

(** X9. Where the labels go: with [cols = min(8, count)], label [i] is in
    row [i / cols] and column [i mod cols], so the column is below 8, the
    rows are filled from the left without a gap, and no two labels share a
    place. *)
Theorem number_card_positions (numbers : list string) (grid : list cell)
        (i : nat) :
  NumberCard numbers = Done grid ->
  (i < List.length numbers)%nat ->
  let cols := Z.min 8 (Z.of_nat (List.length numbers)) in
  exists c : cell,
    nth_error grid i = Some c
    /\ text c = nth i numbers ""
    /\ 0 <= row c /\ 0 <= col c < cols /\ cols <= 8
    /\ row c * cols + col c = Z.of_nat i
    /\ (forall (j : nat) (c' : cell),
          nth_error grid j = Some c' ->
          row c' = row c -> col c' = col c -> j = i).
Proof.
  intros Hcard Hi cols.
  rewrite NumberCard_grid in Hcard. injection Hcard as <-. fold cols.
  assert (Hcols : 0 < cols) by (unfold cols; lia).
  exists {| text := nth i numbers "";
            row := Z.of_nat i / cols;
            col := Z.of_nat i mod cols |}.
  split; [now rewrite grid_of_nth|].
  cbn [text row col].
  pose proof (Z.mod_pos_bound (Z.of_nat i) cols Hcols) as Hmod.
  pose proof (Z.div_mod (Z.of_nat i) cols ltac:(lia)) as Hdm.
  split; [reflexivity|]. split; [apply Z.div_pos; lia|].
  split; [exact Hmod|]. split; [unfold cols; lia|]. split; [lia|].
  intros j c' Hj Hrow Hcol.
  assert (Hlt : (j < List.length numbers)%nat).
  { assert (Hsome : nth_error (grid_of cols 0 numbers) j <> None)
      by (rewrite Hj; discriminate).
    apply nth_error_Some in Hsome. unfold grid_of in Hsome.
    rewrite length_map, length_combine, length_seq in Hsome. lia. }
  rewrite (grid_of_nth cols numbers 0 j Hlt) in Hj.
  injection Hj as <-. cbn [row col] in Hrow, Hcol.
  cbn [Nat.add] in Hrow, Hcol.
  pose proof (Z.div_mod (Z.of_nat j) cols ltac:(lia)) as Hdj.
  rewrite Hrow, Hcol in Hdj. lia.
Qed.

Lemma number_card_positions_witness :
  NumberCard ["1"; "3"; "5"] =
    Done [{| text := "1"; row := 0; col := 0 |};
          {| text := "3"; row := 0; col := 1 |};
          {| text := "5"; row := 0; col := 2 |}]
  /\ (2 < List.length ["1"; "3"; "5"])%nat
  /\ exists c : cell,
       nth_error [{| text := "1"; row := 0; col := 0 |};
                  {| text := "3"; row := 0; col := 1 |};
                  {| text := "5"; row := 0; col := 2 |}] 2 = Some c
       /\ text c = "5".
Proof.
  split; [reflexivity|]. split; [simpl; lia|].
  destruct (number_card_positions ["1"; "3"; "5"] _ 2%nat eq_refl
              ltac:(simpl; lia)) as [c [Hc [Ht _]]].
  exists c. split; [exact Hc|exact Ht].
Defined.

(** X10. Each of the six cards of the game is laid out as four full rows
    of eight labels: place [(r, c)] carries label [8 r + c] of the card,
    and there are no other places. *)
Theorem card_grid_four_by_eight (k : nat) :
  (k < 6)%nat ->
  exists grid : list cell,
    NumberCard (nth k CARDS_NUMS []) = Done grid
    /\ (forall r c : Z,
          0 <= r < 4 -> 0 <= c < 8 ->
          In {| text := nth (Z.to_nat (8 * r + c)) (nth k CARDS_NUMS []) "";
                row := r; col := c |} grid)
    /\ (forall x : cell, In x grid -> 0 <= row x < 4 /\ 0 <= col x < 8).
Proof.
  intros Hk.
  exists (grid_of 8 0 (nth k CARDS_NUMS [])).
  pose proof (card_length k Hk) as Hlen.
  split; [|split].
  - rewrite NumberCard_grid, Hlen. reflexivity.
  - intros r c Hr Hc. apply grid_of_In.
    exists (Z.to_nat (8 * r + c)). split; [lia|].
    rewrite Z2Nat.id by lia. f_equal.
    + apply (Z.div_unique_pos _ 8 r c); lia.
    + apply (Z.mod_unique_pos _ 8 r c); lia.
  - intros x Hx. apply grid_of_In in Hx. destruct Hx as [i [Hi ->]].
    cbn [row col]. rewrite Hlen in Hi.
    pose proof (Z.mod_pos_bound (Z.of_nat i) 8 ltac:(lia)).
    split; [|lia]. split.
    + apply Z.div_pos; lia.
    + apply Z.div_lt_upper_bound; lia.
Qed.

Lemma card_grid_four_by_eight_witness :
  (0 < 6)%nat
  /\ exists grid : list cell,
       NumberCard (nth 0 CARDS_NUMS []) = Done grid
       /\ In {| text := "23"; row := 1; col := 3 |} grid.
Proof.
  split; [lia|].
  destruct (card_grid_four_by_eight 0%nat ltac:(lia))
    as [grid [Hcard [Hin _]]].
  exists grid. split; [exact Hcard|].
  exact (Hin 1 3 ltac:(lia) ltac:(lia)).
Defined.

(** ** The window between clicks *)

Lemma str_card_number (k : nat) :
  (k < 6)%nat ->
  Py.str (Z.of_nat k + 1) = Ok (Py.decimal_string (Z.of_nat k + 1)).
Proof.
  intros Hk. apply str_below, small_below_limit.
  unfold Py.default_max_str_digits. lia.
Qed.

Lemma index_card (k : nat) :
  (k < 6)%nat ->
  Py.index CARDS_NUMS (Z.of_nat k) = Ok (nth k CARDS_NUMS []).
Proof.
  intros Hk. do 6 (destruct k as [|k]; [reflexivity|]). lia.
Qed.

Lemma NumberCard_card (k : nat) :
  (k < 6)%nat ->
  NumberCard (nth k CARDS_NUMS []) = Done (grid_of 8 0 (nth k CARDS_NUMS [])).
Proof.
  intros Hk. now rewrite NumberCard_grid, (card_length k Hk).
Qed.

Lemma update_game_screen_card (a : string) (ans : option string) (k : nat)
      (p0 p1 p2 p3 : Window.page) (cur : Z) (en vis : bool) :
  (k < 6)%nat ->
  Window.update_game_screen
    {| Window.answer := a; Window.answers := ans;
       Window.card_num := Z.of_nat k;
       Window.stacked_widget := [p0; p1; p2; p3];
       Window.currentIndex := cur;
       Window.enabled := en; Window.visible := vis |} =
  Done {| Window.answer := a; Window.answers := ans;
          Window.card_num := Z.of_nat k;
          Window.stacked_widget := [p0; p1; game_page k; p3];
          Window.currentIndex := Window.GAME;
          Window.enabled := en; Window.visible := vis |}.
Proof.
  intros Hk. unfold Window.update_game_screen.
  cbn [Window.card_num].
  rewrite (str_card_number k Hk), (index_card k Hk). cbn [lift obind].
  rewrite (NumberCard_card k Hk). reflexivity.
Qed.

Lemma show_first_card (a : string) (p2 p3 : Window.page) (vis : bool) :
  Window.show_next_card (intro_state a p2 p3 vis) =
  Done (game_state a p3 vis []).
Proof.
  unfold Window.show_next_card, intro_state. cbn [Window.card_num].
  change (6 <=? 0) with false. cbv iota.
  change 0 with (Z.of_nat 0).
  now rewrite update_game_screen_card by lia.
Qed.

Lemma get_result_six (given : list bool) :
  List.length given = 6%nat ->
  get_result (answer_string given) =
  Ok (Py.decimal_string (spec_decode given)).
Proof.
  intros Hlen.
  rewrite get_result_by_length
    by (rewrite answer_string_length, Hlen; simpl; lia).
  now rewrite (decimal_of_clicks given Hlen).
Qed.

Lemma answer_next_card (a : string) (p3 : Window.page) (vis : bool)
      (given : list bool) (b : bool) :
  (List.length given < 5)%nat ->
  Window.answer_click (game_state a p3 vis given) (button b) =
  Done (game_state a p3 vis (given ++ [b])).
Proof.
  intros Hlen.
  unfold Window.answer_click, game_state, Window.process_answer.
  cbn [Window.answers Window.answer Window.card_num Window.stacked_widget
       Window.currentIndex Window.visible obind].
  unfold Window.show_next_card. cbn [Window.card_num].
  destruct (Z.leb_spec 6 (Z.of_nat (List.length given) + 1)) as [Hge|_];
    [lia|].
  replace (Z.of_nat (List.length given) + 1)
    with (Z.of_nat (S (List.length given))) by lia.
  rewrite update_game_screen_card by lia.
  cbn [obind]. unfold Window.setEnabled.
  cbn [Window.answers Window.answer Window.card_num Window.stacked_widget
       Window.currentIndex Window.visible].
  rewrite length_app, Nat.add_1_r. unfold button.
  now rewrite <- answer_string_snoc.
Qed.

Lemma answer_last_card (a : string) (p3 : Window.page) (vis : bool)
      (given : list bool) (b : bool) :
  List.length given = 5%nat ->
  Window.answer_click (game_state a p3 vis given) (button b) =
  Done (result_state a (game_page 5) vis (given ++ [b])).
Proof.
  intros Hlen.
  assert (Hsix : List.length (given ++ [b]) = 6%nat)
    by (rewrite length_app, Hlen; reflexivity).
  unfold Window.answer_click, game_state, Window.process_answer.
  cbn [Window.answers Window.answer Window.card_num Window.stacked_widget
       Window.currentIndex Window.visible obind].
  rewrite Hlen. unfold Window.show_next_card. cbn [Window.card_num].
  change (6 <=? Z.of_nat 5 + 1) with true. cbv iota.
  unfold Window.update_result_screen. cbn [Window.answers].
  unfold button. rewrite <- answer_string_snoc.
  rewrite (get_result_six _ Hsix). cbn [lift obind].
  reflexivity.
Qed.

Lemma slot_answer (w : Window.window) (b : bool) :
  Window.slot (Window.answer_button b) w = Window.answer_click w (button b).
Proof. now destruct b. Qed.

Lemma game_slot_page (k : nat) : (k < 6)%nat -> game_slot (game_page k).
Proof. intros Hk. right. now exists k. Qed.

Lemma result_slot_page (given : list bool) : result_slot (result_page given).
Proof. right. now exists (Py.decimal_string (spec_decode given)). Qed.

Ltac not_on_page H :=
  unfold Window.clickable, Window.shown in H; cbn in H;
  rewrite ?andb_false_r in H; discriminate H.

(** A click on a consistent window raises nothing and leaves a consistent
    window. *)
Lemma click_consistent (w : Window.window) (b : Window.button) :
  consistent w ->
  Window.clickable w b = true ->
  exists w' : Window.window, Window.slot b w = Done w' /\ consistent w'.
Proof.
  intros Hw Hc.
  destruct Hw as [a ans k p2 p3 vis Hp2 Hp3 | a p2 p3 vis Hp2 Hp3
                 | a p3 vis given Hp3 Hlen | a p2 vis given Hp2 Hlen].
  - destruct b; try not_on_page Hc.
    + exists (intro_state a p2 p3 vis). split; [reflexivity|].
      now apply on_intro.
    + exists (menu_state a ans k p2 p3 false). split; [reflexivity|].
      now apply on_menu.
  - destruct b; try not_on_page Hc.
    exists (game_state a p3 vis []). split; [apply show_first_card|].
    apply on_game; [exact Hp3|simpl; lia].
  - assert (Hanswer :
      forall yes : bool,
        exists w' : Window.window,
          Window.answer_click (game_state a p3 vis given) (button yes)
          = Done w' /\ consistent w').
    { intros yes.
      destruct (Nat.eq_dec (List.length given) 5) as [H5|Hn5].
      - exists (result_state a (game_page 5) vis (given ++ [yes])).
        split; [now apply answer_last_card|].
        apply on_result; [apply game_slot_page; lia|].
        rewrite length_app, H5. reflexivity.
      - exists (game_state a p3 vis (given ++ [yes])).
        split; [apply answer_next_card; lia|].
        apply on_game; [exact Hp3|].
        rewrite length_app. simpl. lia. }
    destruct b; try not_on_page Hc.
    + exact (Hanswer true).
    + exact (Hanswer false).
  - destruct b; try not_on_page Hc.
    + exists (intro_state a p2 (result_page given) vis).
      split; [reflexivity|].
      apply on_intro; [exact Hp2|apply result_slot_page].
    + exists (menu_state a (Some (answer_string given)) 6 p2
                (result_page given) vis).
      split; [reflexivity|].
      apply on_menu; [exact Hp2|apply result_slot_page].
Qed.

Lemma init_consistent : consistent Window.init.
Proof.
  apply (on_menu "" None 0 Window.BlankPage Window.BlankPage true);
    now left.
Qed.

Lemma click_inv (w : Window.window) (b : Window.button)
      (r : outcome Window.window) :
  Window.click w b = Some r ->
  Window.clickable w b = true /\ r = Window.slot b w.
Proof.
  unfold Window.click. destruct (Window.clickable w b); [|discriminate].
  intros [= <-]. now split.
Qed.

Lemma reachable_consistent (w : Window.window) :
  Window.reachable w -> consistent w.
Proof.
  induction 1 as [|w w' b _ IH Hclick].
  - exact init_consistent.
  - apply click_inv in Hclick. destruct Hclick as [Hc Hslot].
    destruct (click_consistent w b IH Hc) as [w'' [Hdone Hcons]].
    rewrite Hdone in Hslot. now injection Hslot as ->.
Qed.

Lemma click_start (a : string) (p2 p3 : Window.page) :
  Window.click (intro_state a p2 p3 true) Window.Start =
  Some (Done (game_state a p3 true [])).
Proof.
  unfold Window.click.
  change (Window.clickable (intro_state a p2 p3 true) Window.Start)
    with true.
  cbv iota. cbn [Window.slot]. now rewrite show_first_card.
Qed.

Lemma click_answer (a : string) (p3 : Window.page) (given : list bool)
      (b : bool) :
  Window.click (game_state a p3 true given) (Window.answer_button b) =
  Some (Window.answer_click (game_state a p3 true given) (button b)).
Proof.
  unfold Window.click.
  assert (Hc : Window.clickable (game_state a p3 true given)
                 (Window.answer_button b) = true) by now destruct b.
  now rewrite Hc, slot_answer.
Qed.

(** From the introduction screen, Start and six answers lead to the result
    screen for these answers. *)
Lemma round_from_intro (a : string) (p2 p3 : Window.page)
      (given : list bool) :
  List.length given = 6%nat ->
  Window.clicks (intro_state a p2 p3 true)
    (Window.Start :: map Window.answer_button given) =
  Some (Done (result_state a (game_page 5) true given)).
Proof.
  intros Hlen.
  destruct given as [|b0 [|b1 [|b2 [|b3 [|b4 [|b5 [|b6 rest]]]]]]];
    try discriminate Hlen.
  cbn [Window.clicks map]. rewrite click_start.
  do 5 (rewrite click_answer, answer_next_card by (simpl; lia);
        cbn [app]).
  rewrite click_answer, answer_last_card by reflexivity.
  reflexivity.
Qed.

(** A new game can be started from the main menu and from the result
    screen, and from there only. *)
Lemma new_game_click (w : Window.window) (b : Window.button) :
  consistent w ->
  b = Window.PLAY \/ b = Window.PlayAgain ->
  Window.clickable w b = true ->
  exists (p2 p3 : Window.page),
    result_slot p3
    /\ Window.click w b =
       Some (Done (intro_state (Window.answer w) p2 p3 true)).
Proof.
  intros Hw Hb Hc.
  assert (Hclick : Window.click w b = Some (Window.slot b w))
    by (unfold Window.click; now rewrite Hc).
  rewrite Hclick.
  destruct Hw as [a ans k p2 p3 vis Hp2 Hp3 | a p2 p3 vis Hp2 Hp3
                 | a p3 vis given Hp3 Hlen | a p2 vis given Hp2 Hlen];
    destruct Hb as [-> | ->]; try not_on_page Hc.
  - destruct vis; [|not_on_page Hc].
    exists p2, p3. split; [exact Hp3|reflexivity].
  - destruct vis; [|not_on_page Hc].
    exists p2, (result_page given).
    split; [apply result_slot_page|reflexivity].
Qed.

(** ** Theorems on the window *)

(** X11. No click that the window offers ever raises, in any state that
    clicks can reach from the freshly built window.  This is so although
    [__init__] never creates [self.answers]: on the fresh window
    [process_answer] would raise [AttributeError], but the Yes and No
    buttons only appear after [start_game] has created the attribute. *)
Theorem window_clicks_never_raise (w : Window.window) (b : Window.button)
        (r : outcome Window.window) :
  Window.reachable w ->
  Window.click w b = Some r ->
  (exists w' : Window.window, r = Done w' /\ Window.reachable w')
  /\ (forall a : string,
        Window.process_answer Window.init a = Fault AttributeError).
Proof.
  intros Hreach Hclick. split; [|reflexivity].
  pose proof (reachable_consistent w Hreach) as Hw.
  pose proof (click_inv w b r Hclick) as [Hc Hr].
  destruct (click_consistent w b Hw Hc) as [w' [Hdone _]].
  exists w'. rewrite Hr, Hdone. split; [reflexivity|].
  apply (Window.reach_click w w' b Hreach).
  now rewrite Hclick, Hr, Hdone.
Qed.

Lemma window_clicks_never_raise_witness :
  Window.reachable Window.init
  /\ exists w' : Window.window,
       Window.slot Window.PLAY Window.init = Done w'
       /\ Window.reachable w'.
Proof.
  split; [exact Window.reach_init|].
  exact (proj1 (window_clicks_never_raise Window.init Window.PLAY
                  (Window.slot Window.PLAY Window.init)
                  Window.reach_init eq_refl)).
Defined.

(** X12. The stack keeps its four pages in their places: main menu at
    [MAIN_MENU], introduction at [INTRODUCTION], the game page (or its
    blank placeholder) at [GAME], the result page (or its placeholder) at
    [RESULT]; the index on display is one of the four, the window is
    enabled, and a blank placeholder is never on display. *)
Theorem window_pages_in_place (w : Window.window) :
  Window.reachable w ->
  (exists p2 p3 : Window.page,
     Window.stacked_widget w =
       [Window.MainMenuPage; Window.IntroductionPage; p2; p3]
     /\ game_slot p2 /\ result_slot p3)
  /\ 0 <= Window.currentIndex w <= 3
  /\ Window.enabled w = true
  /\ (exists p : Window.page,
        Window.shown w = Some p /\ p <> Window.BlankPage).
Proof.
  intros Hreach. apply reachable_consistent in Hreach.
  destruct Hreach as [a ans k p2 p3 vis Hp2 Hp3 | a p2 p3 vis Hp2 Hp3
                     | a p3 vis given Hp3 Hlen | a p2 vis given Hp2 Hlen].
  - split; [exists p2, p3; now repeat split|].
    split; [vm_compute; split; discriminate|]. split; [reflexivity|].
    exists Window.MainMenuPage. split; [reflexivity|discriminate].
  - split; [exists p2, p3; now repeat split|].
    split; [vm_compute; split; discriminate|]. split; [reflexivity|].
    exists Window.IntroductionPage. split; [reflexivity|discriminate].
  - split.
    { exists (game_page (List.length given)), p3.
      split; [reflexivity|]. split; [now apply game_slot_page|exact Hp3]. }
    split; [vm_compute; split; discriminate|]. split; [reflexivity|].
    exists (game_page (List.length given)).
    split; [reflexivity|discriminate].
  - split.
    { exists p2, (result_page given).
      split; [reflexivity|]. split; [exact Hp2|apply result_slot_page]. }
    split; [vm_compute; split; discriminate|]. split; [reflexivity|].
    exists (result_page given). split; [reflexivity|discriminate].
Qed.

Lemma window_pages_in_place_witness :
  Window.reachable Window.init
  /\ 0 <= Window.currentIndex Window.init <= 3.
Proof.
  split; [exact Window.reach_init|].
  exact (proj1 (proj2 (window_pages_in_place Window.init
                         Window.reach_init))).
Defined.

Lemma spec_decode_range (given : list bool) :
  List.length given = 6%nat -> 0 <= spec_decode given <= 63.
Proof.
  intros Hlen. rewrite <- (decimal_of_clicks given Hlen).
  pose proof (decimal_of_bounds (answer_string given)) as H.
  rewrite answer_string_length, Hlen in H.
  change (2 ^ Z.of_nat 6) with 64 in H. lia.
Qed.

Lemma clicks_reachable (bs : list Window.button) :
  forall w w' : Window.window,
    Window.reachable w ->
    Window.clicks w bs = Some (Done w') ->
    Window.reachable w'.
Proof.
  induction bs as [|b rest IH]; intros w w' Hreach Hrun.
  - cbn [Window.clicks] in Hrun. now injection Hrun as <-.
  - cbn [Window.clicks] in Hrun.
    destruct (Window.click w b) as [[w1|f]|] eqn:Hclick;
      try discriminate Hrun.
    apply (IH w1 w'); [|exact Hrun].
    exact (Window.reach_click w w1 b Hreach Hclick).
Qed.

Lemma round_any (w : Window.window) (b0 : Window.button)
      (given : list bool) :
  consistent w ->
  b0 = Window.PLAY \/ b0 = Window.PlayAgain ->
  Window.clickable w b0 = true ->
  List.length given = 6%nat ->
  Window.clicks w
    (b0 :: Window.Start :: map Window.answer_button given) =
  Some (Done (result_state (Window.answer w) (game_page 5) true given)).
Proof.
  intros Hw Hb Hc Hlen.
  destruct (new_game_click w b0 Hw Hb Hc) as [p2 [p3 [_ Hclick]]].
  change (Window.clicks w
            (b0 :: Window.Start :: map Window.answer_button given))
    with (match Window.click w b0 with
          | Some (Done w1) =>
              Window.clicks w1
                (Window.Start :: map Window.answer_button given)
          | other => other
          end).
  rewrite Hclick. now apply round_from_intro.
Qed.

Lemma reachable_first_card :
  Window.reachable (game_state "" Window.BlankPage true []).
Proof.
  apply (clicks_reachable [Window.PLAY; Window.Start] Window.init);
    [exact Window.reach_init|].
  cbn [Window.clicks].
  change (Window.click Window.init Window.PLAY)
    with (Some (Done (intro_state "" Window.BlankPage Window.BlankPage
                        true))).
  cbv iota. now rewrite click_start.
Qed.

Lemma reachable_result (given : list bool) :
  List.length given = 6%nat ->
  Window.reachable (result_state "" (game_page 5) true given).
Proof.
  intros Hlen.
  apply (clicks_reachable
           (Window.PLAY :: Window.Start :: map Window.answer_button given)
           Window.init); [exact Window.reach_init|].
  exact (round_any Window.init Window.PLAY given init_consistent
           (or_introl eq_refl) eq_refl Hlen).
Qed.

(** X13. On the game screen the card on display is the one that follows
    the answers given so far: after [k] answers, [k] below 6, the page
    shows "Card k+1 of 6" with the grid of [CARDS_NUMS[k]], [card_num] is
    [k], and [answers] holds exactly these [k] characters ['1'] and
    ['0']. *)
Theorem game_screen_state (w : Window.window) :
  Window.reachable w ->
  Window.currentIndex w = Window.GAME ->
  exists given : list bool,
    (List.length given < 6)%nat
    /\ Window.answers w = Some (answer_string given)
    /\ Window.card_num w = Z.of_nat (List.length given)
    /\ Window.shown w =
         Some (Window.GamePage
                 ("Card " ++ Py.decimal_string
                               (Z.of_nat (List.length given) + 1)
                  ++ " of 6")
                 (grid_of 8 0 (nth (List.length given) CARDS_NUMS []))).
Proof.
  intros Hreach Hcur. apply reachable_consistent in Hreach.
  destruct Hreach as [a ans k p2 p3 vis Hp2 Hp3 | a p2 p3 vis Hp2 Hp3
                     | a p3 vis given Hp3 Hlen | a p2 vis given Hp2 Hlen];
    try discriminate Hcur.
  exists given. split; [exact Hlen|]. now repeat split.
Qed.

Lemma game_screen_state_witness :
  Window.reachable (game_state "" Window.BlankPage true [])
  /\ Window.currentIndex (game_state "" Window.BlankPage true [])
     = Window.GAME
  /\ exists given : list bool,
       (List.length given < 6)%nat
       /\ Window.answers (game_state "" Window.BlankPage true [])
          = Some (answer_string given).
Proof.
  split; [exact reachable_first_card|]. split; [reflexivity|].
  destruct (game_screen_state _ reachable_first_card eq_refl)
    as [given [Hlen [Hans _]]].
  exists given. split; [exact Hlen|exact Hans].
Defined.

(** X14. On the result screen [answers] holds exactly six characters
    ['1'] and ['0'], [get_result] has returned on them, and the label
    shows the numeral of their positional sum, a number of [0..63]. *)
Theorem result_screen_state (w : Window.window) :
  Window.reachable w ->
  Window.currentIndex w = Window.RESULT ->
  exists given : list bool,
    List.length given = 6%nat
    /\ Window.answers w = Some (answer_string given)
    /\ get_result (answer_string given) =
         Ok (Py.decimal_string (spec_decode given))
    /\ Window.shown w =
         Some (Window.ResultPage (Py.decimal_string (spec_decode given)))
    /\ 0 <= spec_decode given <= 63.
Proof.
  intros Hreach Hcur. apply reachable_consistent in Hreach.
  destruct Hreach as [a ans k p2 p3 vis Hp2 Hp3 | a p2 p3 vis Hp2 Hp3
                     | a p3 vis given Hp3 Hlen | a p2 vis given Hp2 Hlen];
    try discriminate Hcur.
  exists given. split; [exact Hlen|]. split; [reflexivity|].
  split; [now apply get_result_six|]. split; [reflexivity|].
  now apply spec_decode_range.
Qed.

Lemma result_screen_state_witness :
  Window.reachable
    (result_state "" (game_page 5) true
       [true; false; true; true; false; false])
  /\ exists given : list bool,
       List.length given = 6%nat
       /\ Some "101100" = Some (answer_string given).
Proof.
  split;
    [exact (reachable_result [true; false; true; true; false; false]
              eq_refl)|].
  destruct (result_screen_state _
              (reachable_result
                 [true; false; true; true; false; false] eq_refl)
              eq_refl)
    as [given [Hlen [Hans _]]].
  exists given. split; [exact Hlen|exact Hans].
Defined.

(** X15. A whole round: wherever a new game can be started (PLAY on the
    main menu, Play Again on the result screen), the clicks on that
    button, on Start and on six answers end on the result screen with the
    numeral of the positional sum of these six answers; what was answered
    in earlier rounds has no influence. *)
Theorem full_round (w : Window.window) (b0 : Window.button)
        (given : list bool) :
  Window.reachable w ->
  b0 = Window.PLAY \/ b0 = Window.PlayAgain ->
  Window.clickable w b0 = true ->
  List.length given = 6%nat ->
  exists w' : Window.window,
    Window.clicks w
      (b0 :: Window.Start :: map Window.answer_button given) =
    Some (Done w')
    /\ Window.answers w' = Some (answer_string given)
    /\ Window.shown w' =
         Some (Window.ResultPage (Py.decimal_string (spec_decode given))).
Proof.
  intros Hreach Hb Hc Hlen.
  exists (result_state (Window.answer w) (game_page 5) true given).
  split; [|split; reflexivity].
  apply round_any; try assumption.
  now apply reachable_consistent.
Qed.

Lemma full_round_witness :
  Window.reachable Window.init
  /\ Window.clickable Window.init Window.PLAY = true
  /\ exists w' : Window.window,
       Window.clicks Window.init
         [Window.PLAY; Window.Start; Window.Yes; Window.Yes; Window.No;
          Window.No; Window.No; Window.Yes] = Some (Done w')
       /\ Window.shown w' = Some (Window.ResultPage "35").
Proof.
  split; [exact Window.reach_init|]. split; [reflexivity|].
  destruct (full_round Window.init Window.PLAY
              [true; true; false; false; false; true]
              Window.reach_init (or_introl eq_refl) eq_refl eq_refl)
    as [w' [Hrun [_ Hshown]]].
  exists w'. split; [exact Hrun|exact Hshown].
Defined.

(** X16. The trick works through the window: when the player thinks of
    a number of [1..63] and answers each card truthfully, the result
    screen shows that number. *)
Theorem full_round_truthful (w : Window.window) (b0 : Window.button)
        (n : Z) :
  Window.reachable w ->
  b0 = Window.PLAY \/ b0 = Window.PlayAgain ->
  Window.clickable w b0 = true ->
  1 <= n <= 63 ->
  exists w' : Window.window,
    Window.clicks w
      (b0 :: Window.Start
          :: map Window.answer_button (map (on_card n) CARDS_NUMS)) =
    Some (Done w')
    /\ Window.shown w' = Some (Window.ResultPage (Py.decimal_string n)).
Proof.
  intros Hreach Hb Hc Hn.
  assert (Hlen : List.length (map (on_card n) CARDS_NUMS) = 6%nat)
    by reflexivity.
  exists (result_state (Window.answer w) (game_page 5) true
            (map (on_card n) CARDS_NUMS)).
  split.
  - apply round_any; try assumption. now apply reachable_consistent.
  - unfold result_state, Window.shown, result_page.
    cbn [Window.stacked_widget Window.currentIndex].
    rewrite <- (decimal_of_clicks _ Hlen), (decimal_of_truthful n Hn).
    reflexivity.
Qed.

Lemma full_round_truthful_witness :
  Window.reachable Window.init
  /\ 1 <= 45 <= 63
  /\ exists w' : Window.window,
       Window.clicks Window.init
         (Window.PLAY :: Window.Start
            :: map Window.answer_button (map (on_card 45) CARDS_NUMS)) =
       Some (Done w')
       /\ Window.shown w' = Some (Window.ResultPage "45").
Proof.
  split; [exact Window.reach_init|]. split; [lia|].
  exact (full_round_truthful Window.init Window.PLAY 45
           Window.reach_init (or_introl eq_refl) eq_refl ltac:(lia)).
Defined.
